(** * tcp_probe_plus: the probe handlers of [jprobe.c]

    A shallow embedding of the two kprobe handlers [jtcp_rcv_established]
    and [jtcp_done], of the ring writer [write_flow] and of the purge
    routines, followed by the properties of the flow table, of the
    cumulative byte counter and of the record ring.

    Machine integers are [Z] with the wrap-around written out; the flow
    hash table is a finite map from the 4-tuple to the flow entry; the
    record ring is a list of [bufsize] slots updated by index. *)

From Stdlib Require Import ZArith Lia Bool List.
From stdpp Require Import base decidable countable gmap list.

Local Open Scope Z_scope.

(** ** Machine integers *)

Module Int.

Definition UINT16_MAX : Z := 65535.
Definition UINT32_MAX : Z := 4294967295.

Definition u16 (z : Z) : Z := z mod 2 ^ 16.
Definition u32 (z : Z) : Z := z mod 2 ^ 32.
Definition u64 (z : Z) : Z := z mod 2 ^ 64.

(** Conversion of a 32-bit pattern to [int]. *)
Definition s32 (z : Z) : Z :=
  let w := z mod 2 ^ 32 in if w <? 2 ^ 31 then w else w - 2 ^ 32.

(** Conversion of a 64-bit pattern to [s64]. *)
Definition s64 (z : Z) : Z :=
  let w := z mod 2 ^ 64 in if w <? 2 ^ 63 then w else w - 2 ^ 64.

(** [ntohs] on a little-endian host: the two bytes of a 16-bit value
    are exchanged. *)
Definition ntohs (x : Z) : Z :=
  Z.lor (Z.shiftl (Z.land x 255) 8) (Z.land (Z.shiftr x 8) 255).

Definition in_u32 (z : Z) : Prop := 0 <= z < 2 ^ 32.
Definition in_u64 (z : Z) : Prop := 0 <= z < 2 ^ 64.

End Int.
Import Int.

(** ** Time *)

Definition NSEC_PER_SEC : Z := 1000000000.
Definition NSEC_PER_MSEC : Z := 1000000.
Definition MSEC_PER_SEC : Z := 1000.

Record timespec := { tv_sec : Z; tv_nsec : Z }.

(** [ns_to_timespec]: [div_s64_rem] truncates towards zero, a negative
    remainder is folded back into the seconds. *)
Definition ns_to_timespec (nsec : Z) : timespec :=
  if nsec =? 0 then {| tv_sec := 0; tv_nsec := 0 |}
  else
    let sec := Z.quot nsec NSEC_PER_SEC in
    let rem := Z.rem nsec NSEC_PER_SEC in
    if rem <? 0
    then {| tv_sec := sec - 1; tv_nsec := rem + NSEC_PER_SEC |}
    else {| tv_sec := sec; tv_nsec := rem |}.

(** [ktime_t] is a signed 64-bit count of nanoseconds. *)
Definition ktime_sub (lhs rhs : Z) : Z := s64 (lhs - rhs).
Definition ktime_to_timespec (kt : Z) : timespec := ns_to_timespec kt.

(** ** Data of the probe *)

Record tcp_tuple := {
  saddr : Z;
  daddr : Z;
  sport : Z;
  dport : Z
}.

#[global] Instance tcp_tuple_eq_dec : EqDecision tcp_tuple.
Proof. solve_decision. Defined.

#[global] Instance tcp_tuple_countable : Countable tcp_tuple.
Proof.
  refine (inj_countable'
            (fun t => (saddr t, daddr t, sport t, dport t))
            (fun '(a, b, c, d) =>
               {| saddr := a; daddr := b; sport := c; dport := d |}) _).
  intros []; reflexivity.
Defined.

(** One entry of the flow hash table. The bucket and aging-list links of
    the C structure are the membership in the finite map below. *)
Record tcp_hash_flow := {
  tuple : tcp_tuple;
  tstamp : Z;
  cumulative_bytes : Z;
  last_seq_num : Z;
  first_seq_num : Z
}.

(** The fields of [struct tcp_sock], [struct inet_sock] and [struct sock]
    that the handlers read. [cur_ssthresh] is the value of the kernel's
    [tcp_current_ssthresh(sk)]. *)
Record sock := {
  inet_saddr : Z;
  inet_daddr : Z;
  inet_sport : Z;
  inet_dport : Z;
  sk_listen : bool;
  sk_ack_backlog : Z;
  sk_max_ack_backlog : Z;
  snd_nxt : Z;
  snd_una : Z;
  snd_cwnd : Z;
  snd_wnd : Z;
  srtt_us : Z;
  rttvar_us : Z;
  lost_out : Z;
  total_retrans : Z;
  packets_out : Z;
  frto : Z;
  rcv_nxt : Z;
  copied_seq : Z;
  write_seq : Z;
  cur_ssthresh : Z
}.

(** One record of the ring, [struct tcp_log]. *)
Record tcp_log := {
  l_tstamp : Z;
  l_saddr : Z;
  l_sport : Z;
  l_daddr : Z;
  l_dport : Z;
  l_length : Z;
  l_snd_nxt : Z;
  l_snd_una : Z;
  l_snd_cwnd : Z;
  l_snd_wnd : Z;
  l_ssthresh : Z;
  l_srtt : Z;
  l_rttvar : Z;
  l_lost : Z;
  l_retrans : Z;
  l_inflight : Z;
  l_rto : Z;
  l_frto_counter : Z;
  l_rqueue : Z;
  l_wqueue : Z;
  l_socket_idf : Z
}.

Definition zero_log : tcp_log :=
  Build_tcp_log 0 0 0 0 0 0 0 0 0 0 0 0 0 0 0 0 0 0 0 0 0.

#[global] Instance tcp_log_inhabited : Inhabited tcp_log := populate zero_log.

(** [struct tcp_probe_list]: the ring and the last written window. *)
Record tcp_probe_list := {
  head : Z;
  tail : Z;
  lastcwnd : Z;
  log : list tcp_log
}.

(** [struct tcpprobe_stat], summed over the CPUs. *)
Record tcpprobe_stat := {
  ack_drop_purge : Z;
  ack_drop_ring_full : Z;
  conn_maxflow_limit : Z;
  reset_flows : Z
}.

(** The module parameters. *)
Record config := {
  port : Z;
  full : bool;
  probetime : Z;
  purgetime : Z;
  maxflows : Z;
  bufsize : Z
}.

(** The globals of [jprobe.c]. [tcp_hash_lock] is [true] while another
    context (the purge timer) holds the table lock. *)
Record state := {
  tcp_hash_lock : bool;
  flows : gmap tcp_tuple tcp_hash_flow;
  flow_count : Z;
  tcp_probe : tcp_probe_list;
  stat : tcpprobe_stat
}.

(** ** Field updates *)

Definition set_probe (p : tcp_probe_list) (st : state) : state :=
  {| tcp_hash_lock := tcp_hash_lock st; flows := flows st;
     flow_count := flow_count st; tcp_probe := p; stat := stat st |}.

Definition set_stat (c : tcpprobe_stat) (st : state) : state :=
  {| tcp_hash_lock := tcp_hash_lock st; flows := flows st;
     flow_count := flow_count st; tcp_probe := tcp_probe st; stat := c |}.

Definition set_flows (m : gmap tcp_tuple tcp_hash_flow) (st : state) : state :=
  {| tcp_hash_lock := tcp_hash_lock st; flows := m;
     flow_count := flow_count st; tcp_probe := tcp_probe st; stat := stat st |}.

Definition set_flow_count (n : Z) (st : state) : state :=
  {| tcp_hash_lock := tcp_hash_lock st; flows := flows st;
     flow_count := n; tcp_probe := tcp_probe st; stat := stat st |}.

Definition set_tstamp (t : Z) (f : tcp_hash_flow) : tcp_hash_flow :=
  {| tuple := tuple f; tstamp := t; cumulative_bytes := cumulative_bytes f;
     last_seq_num := last_seq_num f; first_seq_num := first_seq_num f |}.

Definition set_first_seq_num (n : Z) (f : tcp_hash_flow) : tcp_hash_flow :=
  {| tuple := tuple f; tstamp := tstamp f;
     cumulative_bytes := cumulative_bytes f;
     last_seq_num := last_seq_num f; first_seq_num := n |}.

(** [TCPPROBE_STAT_INC(count)], one definition per counter. *)
Definition stat_inc_ack_drop_purge (st : state) : state :=
  let c := stat st in
  set_stat {| ack_drop_purge := ack_drop_purge c + 1;
              ack_drop_ring_full := ack_drop_ring_full c;
              conn_maxflow_limit := conn_maxflow_limit c;
              reset_flows := reset_flows c |} st.

Definition stat_inc_ack_drop_ring_full (st : state) : state :=
  let c := stat st in
  set_stat {| ack_drop_purge := ack_drop_purge c;
              ack_drop_ring_full := ack_drop_ring_full c + 1;
              conn_maxflow_limit := conn_maxflow_limit c;
              reset_flows := reset_flows c |} st.

Definition stat_inc_conn_maxflow_limit (st : state) : state :=
  let c := stat st in
  set_stat {| ack_drop_purge := ack_drop_purge c;
              ack_drop_ring_full := ack_drop_ring_full c;
              conn_maxflow_limit := conn_maxflow_limit c + 1;
              reset_flows := reset_flows c |} st.

Definition stat_inc_reset_flows (st : state) : state :=
  let c := stat st in
  set_stat {| ack_drop_purge := ack_drop_purge c;
              ack_drop_ring_full := ack_drop_ring_full c;
              conn_maxflow_limit := conn_maxflow_limit c;
              reset_flows := reset_flows c + 1 |} st.

(** ** The record ring *)

(** Modelled from the spec: [tcp_probe_avail] is defined in
    [tcp_probe_plus.h], which is not part of the sources at hand. The
    data model gives "slots available" as [C - (head - tail)]; both
    indices live in the ring's index space, so their difference is taken
    under the same mask [bufsize - 1] as the head update of
    [write_flow]. *)
Definition tcp_probe_used (cfg : config) (p : tcp_probe_list) : Z :=
  Z.land (head p - tail p) (bufsize cfg - 1).

Definition tcp_probe_avail (cfg : config) (p : tcp_probe_list) : Z :=
  bufsize cfg - tcp_probe_used cfg p.

(** The record that [write_flow] stores in the slot at [head]. *)
Definition fill_log (tu : tcp_tuple) (tp : sock) (ts cumulative length
                     ssthresh first_seq_seen : Z) : tcp_log :=
  let srtt := Z.shiftr (srtt_us tp) 3 in
  let rttvar := Z.shiftr (rttvar_us tp) 3 in
  {| l_tstamp := ts;
     l_saddr := saddr tu;
     l_sport := sport tu;
     l_daddr := daddr tu;
     l_dport := dport tu;
     l_length := length;
     l_snd_nxt := cumulative;
     l_snd_una := snd_una tp;
     l_snd_cwnd := snd_cwnd tp;
     l_snd_wnd := snd_wnd tp;
     l_ssthresh := ssthresh;
     l_srtt := srtt;
     l_rttvar := rttvar;
     l_lost := lost_out tp;
     l_retrans := total_retrans tp;
     l_inflight := packets_out tp;
     l_rto := u32 (srtt + 4 * rttvar);
     l_frto_counter := frto tp;
     l_rqueue := if sk_listen tp then sk_ack_backlog tp
                 else Z.max (s32 (rcv_nxt tp - copied_seq tp)) 0;
     l_wqueue := if sk_listen tp then sk_max_ack_backlog tp
                 else u32 (write_seq tp - snd_una tp);
     l_socket_idf := first_seq_seen |}.

(** [write_flow]: store the record when more than one slot is available,
    count a drop otherwise; [lastcwnd] is assigned on both paths and the
    function returns 0. *)
Definition write_flow (cfg : config) (tu : tcp_tuple) (tp : sock)
    (ts cumulative length ssthresh first_seq_seen : Z) (st : state)
  : Z * state :=
  let p := tcp_probe st in
  let st1 :=
    if tcp_probe_avail cfg p >? 1 then
      let r := fill_log tu tp ts cumulative length ssthresh first_seq_seen in
      set_probe {| head := Z.land (head p + 1) (bufsize cfg - 1);
                   tail := tail p;
                   lastcwnd := lastcwnd p;
                   log := <[Z.to_nat (head p) := r]> (log p) |} st
    else stat_inc_ack_drop_ring_full st in
  let p1 := tcp_probe st1 in
  (0, set_probe {| head := head p1; tail := tail p1;
                   lastcwnd := snd_cwnd tp; log := log p1 |} st1).

(** ** The flow table *)

(** Modelled from the spec: [tcp_flow_find] is defined in
    [tcp_probe_plus.h]; it is the table's [lookup(identity)], the bucket
    computed by [hash_tcp_flow] being an implementation matter of the
    hash table. *)
Definition tcp_flow_find (tu : tcp_tuple) (st : state) : option tcp_hash_flow :=
  flows st !! tu.

(** Modelled from the spec: [init_tcp_hash_flow] is defined in
    [tcp_probe_plus.h]; it allocates a zeroed entry for the identity,
    stamps it, links it into the table and counts it in [flow_count]. *)
Definition init_tcp_hash_flow (tu : tcp_tuple) (ts : Z) (st : state)
  : tcp_hash_flow * state :=
  let f := {| tuple := tu; tstamp := ts; cumulative_bytes := 0;
              last_seq_num := 0; first_seq_num := 0 |} in
  (f, set_flow_count (flow_count st + 1)
        (set_flows (<[tu := f]> (flows st)) st)).

(** Modelled from the spec: [tcp_hash_flow_free] is defined in
    [tcp_probe_plus.h]; it releases the entry and uncounts it. *)
Definition tcp_hash_flow_free (st : state) : state :=
  set_flow_count (flow_count st - 1) st.

(** [hlist_del] and [list_del] of an entry. *)
Definition unlink_flow (tu : tcp_tuple) (st : state) : state :=
  set_flows (delete tu (flows st)) st.

(** A write through the [tcp_flow] pointer. *)
Definition store_flow (tu : tcp_tuple) (f : tcp_hash_flow) (st : state) : state :=
  set_flows (<[tu := f]> (flows st)) st.

(** ** Cumulative bytes *)

(** The update of [cumulative_bytes] and [last_seq_num]; the same
    statements stand in [jtcp_rcv_established] and in [jtcp_done]. The
    sequence numbers are [u32], the differences are computed in [u32] and
    accumulated into the [u64] counter. *)
Definition account_bytes (tp : sock) (f : tcp_hash_flow) : tcp_hash_flow :=
  let cb :=
    if snd_nxt tp >? last_seq_num f then
      u64 (cumulative_bytes f + u32 (snd_nxt tp - last_seq_num f))
    else if negb (snd_nxt tp =? last_seq_num f) then
      u64 (cumulative_bytes f
           + u32 (u32 (UINT32_MAX - last_seq_num f) + snd_nxt tp))
    else cumulative_bytes f in
  {| tuple := tuple f; tstamp := tstamp f; cumulative_bytes := cb;
     last_seq_num := snd_nxt tp; first_seq_num := first_seq_num f |}.

(** ** The handlers *)

Definition sk_tuple (sk : sock) : tcp_tuple :=
  {| saddr := inet_saddr sk; daddr := inet_daddr sk;
     sport := inet_sport sk; dport := inet_dport sk |}.

Definition port_filter (cfg : config) (tu : tcp_tuple) : bool :=
  (port cfg =? 0) || (ntohs (dport tu) =? port cfg)
  || (ntohs (sport tu) =? port cfg).

(** The window gate of [jtcp_rcv_established]. *)
Definition cwnd_gate (cfg : config) (tp : sock) (st : state) : bool :=
  full cfg || negb (snd_cwnd tp =? lastcwnd (tcp_probe st)).

(** Milliseconds between two time stamps, as a [u_int64_t]. *)
Definition milliseconds (now before : Z) : Z :=
  let tv := ktime_to_timespec (ktime_sub now before) in
  u64 (tv_sec tv * MSEC_PER_SEC + Z.quot (tv_nsec tv) NSEC_PER_MSEC).

(** The interval gate: [milliseconds >= probetime], the [int] parameter
    being converted to the type of [milliseconds]. *)
Definition interval_gate (cfg : config) (now : Z) (f : tcp_hash_flow) : bool :=
  u64 (probetime cfg) <=? milliseconds now (tstamp f).

(** The admission test on a miss of the lookup. *)
Definition maxflow_reached (cfg : config) (st : state) : bool :=
  (maxflows cfg >? 0) && (flow_count st >=? maxflows cfg).

(** [jtcp_rcv_established(sk, skb, th, len)]; [skb_len] is [skb->len] and
    [now] the value of [ktime_get()]. The function returns 0 on every
    path; the result here is the state it leaves. The ring lock is taken
    around [write_flow] only and [wake_up] concerns the reader. *)
Definition jtcp_rcv_established (cfg : config) (sk : sock) (skb_len now : Z)
    (st : state) : state :=
  let tp := sk in
  let length := u16 skb_len in
  let tu := sk_tuple sk in
  if port_filter cfg tu && cwnd_gate cfg tp st then
    if tcp_hash_lock st then
      (* spin_trylock failed: the purge is running *)
      stat_inc_ack_drop_purge st
    else
      let '(tcp_flow, should_write_flow, st1) :=
        match tcp_flow_find tu st with
        | None =>
            if maxflow_reached cfg st then
              (None, false, stat_inc_conn_maxflow_limit st)
            else
              let '(f, st') := init_tcp_hash_flow tu now st in
              let f1 := set_tstamp now (set_first_seq_num (snd_nxt tp) f) in
              (Some f1, true, store_flow tu f1 st')
        | Some f =>
            if interval_gate cfg now f then
              let f1 := set_tstamp now f in
              (Some f1, true, store_flow tu f1 st)
            else (Some f, false, st)
        end in
      match should_write_flow, tcp_flow with
      | true, Some f =>
          let f2 := account_bytes tp f in
          let st2 := store_flow tu f2 st1 in
          snd (write_flow cfg tu tp now (cumulative_bytes f2) length
                 (cur_ssthresh sk) (first_seq_num f2) st2)
      | _, _ => st1
      end
  else st.

(** What a call of [jtcp_done] comes to: it returns, leaving a state, or
    it busy-waits in [spin_lock] for as long as the table lock is held
    elsewhere. *)
Inductive outcome :=
| Done (st : state)
| Spin.

(** [jtcp_done(sk)]. *)
Definition jtcp_done (cfg : config) (sk : sock) (now : Z) (st : state)
  : outcome :=
  let tp := sk in
  let tu := sk_tuple sk in
  if port_filter cfg tu then
    if tcp_hash_lock st then Spin
    else
      match tcp_flow_find tu st with
      | None => Done st
      | Some f =>
          let f1 := account_bytes tp f in
          let st1 := store_flow tu f1 st in
          let st2 := stat_inc_reset_flows st1 in
          let st3 :=
            snd (write_flow cfg tu tp now (cumulative_bytes f1) UINT16_MAX
                   (cur_ssthresh sk) (first_seq_num f1) st2) in
          Done (tcp_hash_flow_free (unlink_flow tu st3))
      end
  else Done st.

(** ** The purge *)

(** Seconds between two time stamps, [tv.tv_sec] of the difference. *)
Definition idle_seconds (now before : Z) : Z :=
  tv_sec (ktime_to_timespec (ktime_sub now before)).

(** [purge_timer_run]: every flow idle for [purgetime] seconds or more is
    unlinked and freed. The timer takes the table lock with [spin_lock]. *)
Definition purge_timer_run (cfg : config) (now : Z) (st : state) : outcome :=
  if tcp_hash_lock st then Spin
  else
    let keep := filter (fun kv => ¬ (purgetime cfg <= idle_seconds now (tstamp kv.2)))
                       (flows st) in
    let purged := Z.of_nat (size (flows st)) - Z.of_nat (size keep) in
    Done (set_flow_count (flow_count st - purged) (set_flows keep st)).

(** [purge_all_flows]: every flow is unlinked and freed. *)
Definition purge_all_flows (st : state) : outcome :=
  if tcp_hash_lock st then Spin
  else
    Done (set_flow_count (flow_count st - Z.of_nat (size (flows st)))
            (set_flows ∅ st)).

(** ** Views used by the statements *)

(** A ring is well formed when its capacity is a power of two (the
    module rounds [bufsize] up at start-up), both indices are in range
    and the array has [bufsize] slots. *)
Definition ring_ok (cfg : config) (p : tcp_probe_list) : Prop :=
  (exists k, 0 <= k /\ bufsize cfg = 2 ^ k)
  /\ 0 <= head p < bufsize cfg
  /\ 0 <= tail p < bufsize cfg
  /\ Z.of_nat (length (log p)) = bufsize cfg.

(** The slot that is [i] places after the tail. *)
Definition ring_slot (cfg : config) (p : tcp_probe_list) (i : nat) : tcp_log :=
  log p !!! Z.to_nat ((tail p + Z.of_nat i) mod bufsize cfg).

(** The records a reader would drain, oldest first. *)
Definition ring_records (cfg : config) (p : tcp_probe_list) : list tcp_log :=
  map (ring_slot cfg p) (seq 0 (Z.to_nat (tcp_probe_used cfg p))).

(** [flow_count] agrees with the number of entries of the table. *)
Definition counted (st : state) : Prop :=
  flow_count st = Z.of_nat (size (flows st)).

(** The arguments of one call of [write_flow]. *)
Record push := {
  p_tuple : tcp_tuple;
  p_tp : sock;
  p_tstamp : Z;
  p_cumulative : Z;
  p_length : Z;
  p_ssthresh : Z;
  p_first_seq : Z
}.

Definition push_record (a : push) : tcp_log :=
  fill_log (p_tuple a) (p_tp a) (p_tstamp a) (p_cumulative a) (p_length a)
    (p_ssthresh a) (p_first_seq a).

Definition push_call (cfg : config) (a : push) (st : state) : Z * state :=
  write_flow cfg (p_tuple a) (p_tp a) (p_tstamp a) (p_cumulative a)
    (p_length a) (p_ssthresh a) (p_first_seq a) st.

(** A run of calls of [write_flow] with no reader in between. *)
Fixpoint push_all (cfg : config) (l : list push) (st : state) : state :=
  match l with
  | [] => st
  | a :: l' => push_all cfg l' (snd (push_call cfg a st))
  end.

(** A run of observation events, each with its socket snapshot, segment
    length and time. *)
Record observation := {
  o_sk : sock;
  o_len : Z;
  o_now : Z
}.

Fixpoint observe_all (cfg : config) (l : list observation) (st : state) : state :=
  match l with
  | [] => st
  | e :: l' =>
      observe_all cfg l'
        (jtcp_rcv_established cfg (o_sk e) (o_len e) (o_now e) st)
  end.

(** The entry of an identity seen for the first time, once
    [jtcp_rcv_established] has stamped it and run the byte update. *)
Definition fresh_flow (sk : sock) (now : Z) : tcp_hash_flow :=
  account_bytes sk
    {| tuple := sk_tuple sk; tstamp := now; cumulative_bytes := 0;
       last_seq_num := 0; first_seq_num := snd_nxt sk |}.

(** ** Sample inputs *)

Module Ex.

(** No port filter, change-only capture, 10 ms between samples. *)
Definition cfg (C K : Z) : config :=
  {| port := 0; full := false; probetime := 10; purgetime := 300;
     maxflows := K; bufsize := C |}.

(** Every event captured, no minimum interval. *)
Definition cfg_full (C : Z) : config :=
  {| port := 0; full := true; probetime := 0; purgetime := 300;
     maxflows := 0; bufsize := C |}.

(** An established connection from local port [sp] with the given
    next sequence number and congestion window. *)
Definition conn (sp nxt cw : Z) : sock :=
  {| inet_saddr := 167772161; inet_daddr := 167772162;
     inet_sport := sp; inet_dport := 20480;
     sk_listen := false; sk_ack_backlog := 0; sk_max_ack_backlog := 0;
     snd_nxt := nxt; snd_una := 0; snd_cwnd := cw; snd_wnd := 65535;
     srtt_us := 800; rttvar_us := 160; lost_out := 0;
     total_retrans := 0; packets_out := 0; frto := 0; rcv_nxt := 0;
     copied_seq := 0; write_seq := nxt; cur_ssthresh := 20 |}.

(** The state after module start-up: empty table, empty zeroed ring. *)
Definition boot (C : Z) : state :=
  {| tcp_hash_lock := false; flows := ∅; flow_count := 0;
     tcp_probe := {| head := 0; tail := 0; lastcwnd := 0;
                     log := replicate (Z.to_nat C) zero_log |};
     stat := {| ack_drop_purge := 0; ack_drop_ring_full := 0;
                conn_maxflow_limit := 0; reset_flows := 0 |} |}.

Definition msec (n : Z) : Z := n * NSEC_PER_MSEC.

(** A state whose table lock is held by the purge. *)
Definition lock (st : state) : state :=
  {| tcp_hash_lock := true; flows := flows st;
     flow_count := flow_count st; tcp_probe := tcp_probe st;
     stat := stat st |}.

(** The arguments of a push of a record of length [n]. *)
Definition rec (n : Z) : push :=
  {| p_tuple := sk_tuple (conn 1 0 10); p_tp := conn 1 0 10;
     p_tstamp := msec n; p_cumulative := 0; p_length := n;
     p_ssthresh := 20; p_first_seq := 0 |}.

(** The cumulative byte count and last sequence number stored for the
    identity of [sk]. *)
Definition bytes_of (sk : sock) (st : state) : option (Z * Z) :=
  (fun f => (cumulative_bytes f, last_seq_num f)) <$> flows st !! sk_tuple sk.

(** Lengths of the records in the ring, oldest first. *)
Definition lengths (c : config) (st : state) : list Z :=
  map l_length (ring_records c (tcp_probe st)).

Definition obs (sk : sock) (t : Z) : observation :=
  {| o_sk := sk; o_len := 1000; o_now := t |}.

(** [n] rounds of two observations one millisecond apart: the
    sequence number is at the last value of the 32-bit space, then
    back at 0. *)
Fixpoint wrap_run (n : nat) (t : Z) : list observation :=
  match n with
  | O => []
  | S n' =>
      obs (conn 1 UINT32_MAX 10) t
      :: obs (conn 1 0 10) (t + msec 1)
      :: wrap_run n' (t + msec 2)
  end.

(** A flow created at sequence number 0 and observed through
    [2 ^ 32 + 1] such rounds. *)
Definition long_run : list observation :=
  obs (conn 1 0 10) 0 :: wrap_run (Z.to_nat (2 ^ 32 + 1)) (msec 1).

(** Two flows created one millisecond apart in a ring of two slots;
    the second record already finds the ring at its reserve margin. *)
Definition two_flows : state :=
  jtcp_rcv_established (cfg 2 0) (conn 2 500 11) 1000 (msec 1)
    (jtcp_rcv_established (cfg 2 0) (conn 1 100 10) 1000 0 (boot 2)).

End Ex.

(** ** Events and runs *)

(** What the kernel delivers to the module: a segment received on an
    established socket, a socket being closed, the purge timer firing. *)
Inductive event :=
| Observed (sk : sock) (skb_len now : Z)
| Closed (sk : sock) (now : Z)
| PurgeTimer (now : Z).

Definition step (cfg : config) (e : event) (st : state) : outcome :=
  match e with
  | Observed sk skb_len now => Done (jtcp_rcv_established cfg sk skb_len now st)
  | Closed sk now => jtcp_done cfg sk now st
  | PurgeTimer now => purge_timer_run cfg now st
  end.

(** The events of a list, one after the other; a call that waits for the
    lock stops the run. *)
Fixpoint run (cfg : config) (l : list event) (st : state) : outcome :=
  match l with
  | [] => Done st
  | e :: l' =>
      match step cfg e st with
      | Done st1 => run cfg l' st1
      | Spin => Spin
      end
  end.

(** Every entry is filed under its own 4-tuple. *)
Definition keyed (st : state) : Prop :=
  forall tu f, flows st !! tu = Some f -> tuple f = tu.

(** The state between two calls, when nobody holds the table lock. *)
Definition state_ok (cfg : config) (st : state) : Prop :=
  tcp_hash_lock st = false
  /\ counted st
  /\ keyed st
  /\ ring_ok cfg (tcp_probe st).

(** The sum of the three drop counters. *)
Definition drops (st : state) : Z :=
  ack_drop_purge (stat st) + ack_drop_ring_full (stat st)
  + conn_maxflow_limit (stat st).

(** ** Loading and unloading the module ([main.c]) *)

Definition ENOMEM : Z := 12.
Definition EINVAL : Z := 22.

(** What [tcpprobe_init] acquires, in the order of acquisition. *)
Inductive resource :=
| R_tcp_hash
| R_tcp_flow_cachep
| R_purge_timer
| R_sysctl
| R_proc_stat
| R_log
| R_proc_data
| R_jprobe
| R_jprobe_done.

#[global] Instance resource_eq_dec : EqDecision resource.
Proof. solve_decision. Defined.

(** The kernel as [tcpprobe_init] meets it: the memory size that sizes
    the hash table, and the outcome of each call that can fail. *)
Record kernel := {
  totalram_pages : Z;
  PAGE_SHIFT : Z;
  sizeof_hlist_head : Z;
  vmalloc_ok : bool;
  kmem_cache_create_ok : bool;
  register_sysctl_ok : bool;
  proc_create_stat_ok : bool;
  kcalloc_ok : bool;
  proc_create_data_ok : bool;
  register_jprobe_rcv : Z;
  register_jprobe_done : Z
}.

(** The module once loaded: its parameters as [tcpprobe_init] left
    them, what it holds, and the globals of [jprobe.c]. *)
Record module := {
  m_cfg : config;
  m_hashsize : Z;
  m_tcp_hash_size : Z;
  m_held : list resource;
  m_state : state
}.

(** The kernel's [roundup_pow_of_two], for a nonzero argument. *)
Definition roundup_pow_of_two (n : Z) : Z := 2 ^ Z.log2_up n.

(** Giving back something that is held; [None] when it is not. *)
Definition release (r : resource) (held : list resource)
  : option (list resource) :=
  if decide (r ∈ held) then Some (filter (fun x => x <> r) held) else None.

(** [kfree(tcp_probe.log)]: a null pointer is accepted. *)
Definition kfree_log (held : list resource) : option (list resource) :=
  if decide (R_log ∈ held) then release R_log held else Some held.

(** The labels at the end of [tcpprobe_init]; each falls through to the
    next. *)
Definition err_free_hash (held : list resource) : option (list resource) :=
  release R_tcp_hash held.

Definition err0 (held : list resource) : option (list resource) :=
  h1 ← release R_purge_timer held;
  h2 ← kfree_log h1;
  h3 ← release R_tcp_flow_cachep h2;
  err_free_hash h3.

Definition err_free_sysctl (held : list resource) : option (list resource) :=
  h1 ← release R_sysctl held; err0 h1.

Definition err_free_proc_stat (held : list resource) : option (list resource) :=
  h1 ← release R_proc_stat held; err_free_sysctl h1.

Definition err1 (held : list resource) : option (list resource) :=
  h1 ← release R_proc_data held; err_free_proc_stat h1.

Definition err_tcpdone (held : list resource) : option (list resource) :=
  h1 ← release R_jprobe held; err1 h1.

(** The hash size [tcpprobe_init] settles on: sized from the memory
    when the parameter is 0, and never below 32. [hashsize] is an
    [unsigned int], the memory size an [unsigned long]. *)
Definition init_hashsize (k : kernel) (hashsize : Z) : Z :=
  let h1 :=
    if hashsize =? 0 then
      let h :=
        u32 (Z.quot (Z.quot (u64 (Z.shiftl (totalram_pages k) (PAGE_SHIFT k)))
                       16384)
               (sizeof_hlist_head k)) in
      if totalram_pages k
         >? Z.quot (1024 * 1024 * 1024) (Z.shiftl 1 (PAGE_SHIFT k))
      then 16384 else h
    else hashsize in
  if h1 <? 32 then 32 else h1.

(** The globals of [jprobe.c] when the module is loaded: static storage
    is zeroed, [flow_count] is [ATOMIC_INIT(0)]. *)
Definition initial_state (log : list tcp_log) : state :=
  {| tcp_hash_lock := false; flows := ∅; flow_count := 0;
     tcp_probe := {| head := 0; tail := 0; lastcwnd := 0; log := log |};
     stat := {| ack_drop_purge := 0; ack_drop_ring_full := 0;
                conn_maxflow_limit := 0; reset_flows := 0 |} |}.

Definition set_bufsize (n : Z) (cfg : config) : config :=
  {| port := port cfg; full := full cfg; probetime := probetime cfg;
     purgetime := purgetime cfg; maxflows := maxflows cfg; bufsize := n |}.

(** [tcpprobe_init]: the return value, and the module as it stands on
    return. The second component is [None] if a label gives back
    something that was never acquired. *)
Definition tcpprobe_init (k : kernel) (cfg : config) (hashsize : Z)
  : Z * option module :=
  let mk c hs ths log held :=
    {| m_cfg := c; m_hashsize := hs; m_tcp_hash_size := ths;
       m_held := held; m_state := initial_state log |} in
  let ret := - ENOMEM in
  if bufsize cfg =? 0 then
    (- EINVAL, Some (mk cfg hashsize 0 [] []))
  else
    let hs := init_hashsize k hashsize in
    let fail c log held := (ret, mk c hs hs log <$> held) in
    if negb (vmalloc_ok k) then
      (* goto err *)
      fail cfg [] (Some [])
    else
      let h1 := [R_tcp_hash] in
      if negb (kmem_cache_create_ok k) then fail cfg [] (err_free_hash h1)
      else
        let h3 := h1 ++ [R_tcp_flow_cachep; R_purge_timer] in
        if negb (register_sysctl_ok k) then fail cfg [] (err0 h3)
        else
          let h4 := h3 ++ [R_sysctl] in
          if negb (proc_create_stat_ok k) then
            fail cfg [] (err_free_sysctl h4)
          else
            let h5 := h4 ++ [R_proc_stat] in
            let cfg1 := set_bufsize (u32 (roundup_pow_of_two (bufsize cfg)))
                          cfg in
            if negb (kcalloc_ok k) then fail cfg1 [] (err_free_proc_stat h5)
            else
              let log := replicate (Z.to_nat (bufsize cfg1)) zero_log in
              let h6 := h5 ++ [R_log] in
              if negb (proc_create_data_ok k) then
                fail cfg1 log (err_free_proc_stat h6)
              else
                let h7 := h6 ++ [R_proc_data] in
                let ret := register_jprobe_rcv k in
                if negb (ret =? 0) then
                  (ret, mk cfg1 hs hs log <$> err1 h7)
                else
                  let h8 := h7 ++ [R_jprobe] in
                  let ret := register_jprobe_done k in
                  if negb (ret =? 0) then
                    (ret, mk cfg1 hs hs log <$> err_tcpdone h8)
                  else
                    (0, Some (mk cfg1 hs hs log (h8 ++ [R_jprobe_done]))).

(** [tcpprobe_exit]: [None] if something not held is given back or if
    [purge_all_flows] finds the table lock taken. *)
Definition tcpprobe_exit (m : module) : option module :=
  h1 ← release R_proc_data (m_held m);
  h2 ← release R_proc_stat h1;
  h3 ← release R_sysctl h2;
  h4 ← release R_jprobe h3;
  h5 ← release R_jprobe_done h4;
  h6 ← kfree_log h5;
  h7 ← release R_purge_timer h6;
  match purge_all_flows (m_state m) with
  | Spin => None
  | Done st =>
      h8 ← release R_tcp_flow_cachep h7;
      h9 ← release R_tcp_hash h8;
      Some {| m_cfg := m_cfg m; m_hashsize := m_hashsize m;
              m_tcp_hash_size := m_tcp_hash_size m;
              m_held := h9; m_state := st |}
  end.

(** Everything a loaded module holds. *)
Definition all_resources : list resource :=
  [R_tcp_hash; R_tcp_flow_cachep; R_purge_timer; R_sysctl; R_proc_stat;
   R_log; R_proc_data; R_jprobe; R_jprobe_done].

(** The module with the globals of [jprobe.c] as the handlers left
    them. *)
Definition set_m_state (st : state) (m : module) : module :=
  {| m_cfg := m_cfg m; m_hashsize := m_hashsize m;
     m_tcp_hash_size := m_tcp_hash_size m; m_held := m_held m;
     m_state := st |}.

(** A machine with 4 KiB pages and 8-byte list heads on which every
    call succeeds. *)
Definition kernel_ok (pages : Z) : kernel :=
  {| totalram_pages := pages; PAGE_SHIFT := 12; sizeof_hlist_head := 8;
     vmalloc_ok := true; kmem_cache_create_ok := true;
     register_sysctl_ok := true; proc_create_stat_ok := true;
     kcalloc_ok := true; proc_create_data_ok := true;
     register_jprobe_rcv := 0; register_jprobe_done := 0 |}.

(** The same machine, on which registering the second probe fails. *)
Definition kernel_no_tcp_done (pages : Z) : kernel :=
  {| totalram_pages := pages; PAGE_SHIFT := 12; sizeof_hlist_head := 8;
     vmalloc_ok := true; kmem_cache_create_ok := true;
     register_sysctl_ok := true; proc_create_stat_ok := true;
     kcalloc_ok := true; proc_create_data_ok := true;
     register_jprobe_rcv := 0; register_jprobe_done := -22 |}.

(** ** Machine arithmetic *)

Section Arith.

Lemma u32_small z : in_u32 z -> u32 z = z.
Proof. unfold in_u32, u32. intros H. apply Z.mod_small. lia. Qed.

Lemma u64_small z : in_u64 z -> u64 z = z.
Proof. unfold in_u64, u64. intros H. apply Z.mod_small. lia. Qed.

Lemma u64_nonneg z : 0 <= u64 z.
Proof. unfold u64. apply Z.mod_pos_bound. lia. Qed.

Lemma u64_bound z : in_u64 (u64 z).
Proof. unfold in_u64, u64. apply Z.mod_pos_bound. lia. Qed.

Lemma s64_small z : - 2 ^ 63 <= z < 2 ^ 63 -> s64 z = z.
Proof.
  intros H. unfold s64.
  destruct (Z.ltb_spec (z mod 2 ^ 64) (2 ^ 63)) as [Hlt | Hge].
  - destruct (Z.le_gt_cases 0 z) as [Hz | Hz].
    + apply Z.mod_small. lia.
    + exfalso.
      assert (Hm : z mod 2 ^ 64 = z + 2 ^ 64).
      { symmetry. apply (Z.mod_unique_pos _ _ (-1)); lia. }
      lia.
  - destruct (Z.le_gt_cases 0 z) as [Hz | Hz].
    + exfalso. rewrite Z.mod_small in Hge by lia. lia.
    + assert (Hm : z mod 2 ^ 64 = z + 2 ^ 64).
      { symmetry. apply (Z.mod_unique_pos _ _ (-1)); lia. }
      lia.
Qed.

(** The mask [bufsize - 1] of a power of two is the remainder. *)
Lemma land_mask k z : 0 <= k -> Z.land z (2 ^ k - 1) = z mod 2 ^ k.
Proof.
  intros Hk. replace (2 ^ k - 1) with (Z.ones k).
  - apply Z.land_ones. exact Hk.
  - rewrite Z.ones_equiv. lia.
Qed.

End Arith.

(** ** Time stamps *)

Section Clock.

Lemma ns_to_timespec_nonneg d :
  0 <= d ->
  ns_to_timespec d
  = {| tv_sec := d / NSEC_PER_SEC; tv_nsec := d mod NSEC_PER_SEC |}.
Proof.
  intros Hd. unfold ns_to_timespec, NSEC_PER_SEC.
  destruct (Z.eqb_spec d 0) as [-> | Hne]; [reflexivity |].
  rewrite Z.quot_div_nonneg, Z.rem_mod_nonneg by lia.
  assert (Hr : 0 <= d mod 1000000000 < 1000000000)
    by (apply Z.mod_pos_bound; lia).
  destruct (Z.ltb_spec (d mod 1000000000) 0); [lia | reflexivity].
Qed.

(** With a monotonic clock the elapsed milliseconds are the quotient
    of the elapsed nanoseconds. *)
Lemma milliseconds_elapsed now before :
  0 <= before -> before <= now -> now < 2 ^ 63 ->
  milliseconds now before = (now - before) / NSEC_PER_MSEC.
Proof.
  intros H0 H1 H2. unfold milliseconds, ktime_to_timespec, ktime_sub.
  rewrite s64_small by lia.
  rewrite ns_to_timespec_nonneg by lia. cbn [tv_sec tv_nsec].
  set (d := now - before).
  assert (Hd : 0 <= d < 2 ^ 63) by (unfold d; lia).
  unfold NSEC_PER_SEC, MSEC_PER_SEC, NSEC_PER_MSEC.
  assert (Hr : 0 <= d mod 1000000000 < 1000000000)
    by (apply Z.mod_pos_bound; lia).
  rewrite Z.quot_div_nonneg by lia.
  assert (Hsplit : d / 1000000
                   = d / 1000000000 * 1000 + d mod 1000000000 / 1000000).
  { rewrite (Z.div_mod d 1000000000) at 1 by lia.
    replace (1000000000 * (d / 1000000000) + d mod 1000000000)
      with (d mod 1000000000 + (d / 1000000000 * 1000) * 1000000) by lia.
    rewrite Z.div_add by lia. lia. }
  rewrite <- Hsplit. apply u64_small. unfold in_u64.
  assert (0 <= d / 1000000) by (apply Z.div_pos; lia).
  assert (d / 1000000 <= d) by (apply Z.div_le_upper_bound; lia).
  lia.
Qed.


Lemma interval_gate_zero cfg now f :
  probetime cfg = 0 -> interval_gate cfg now f = true.
Proof.
  intros Hp. unfold interval_gate. rewrite Hp. apply Z.leb_le.
  unfold milliseconds. replace (u64 0) with 0 by reflexivity.
  apply u64_nonneg.
Qed.

End Clock.

(** ** The ring writer *)

Section WriteFlow.

Variable cfg : config.

Lemma write_flow_returns_0 tu tp ts cb len ss fs st :
  fst (write_flow cfg tu tp ts cb len ss fs st) = 0.
Proof. reflexivity. Qed.

Lemma write_flow_room tu tp ts cb len ss fs st :
  (tcp_probe_avail cfg (tcp_probe st) >? 1) = true ->
  snd (write_flow cfg tu tp ts cb len ss fs st)
  = set_probe
      {| head := Z.land (head (tcp_probe st) + 1) (bufsize cfg - 1);
         tail := tail (tcp_probe st);
         lastcwnd := snd_cwnd tp;
         log := <[Z.to_nat (head (tcp_probe st))
                  := fill_log tu tp ts cb len ss fs]> (log (tcp_probe st)) |}
      st.
Proof. intros H. unfold write_flow. rewrite H. reflexivity. Qed.

Lemma write_flow_refused tu tp ts cb len ss fs st :
  (tcp_probe_avail cfg (tcp_probe st) >? 1) = false ->
  snd (write_flow cfg tu tp ts cb len ss fs st)
  = set_probe
      {| head := head (tcp_probe st);
         tail := tail (tcp_probe st);
         lastcwnd := snd_cwnd tp;
         log := log (tcp_probe st) |}
      (stat_inc_ack_drop_ring_full st).
Proof. intros H. unfold write_flow. rewrite H. reflexivity. Qed.

Lemma write_flow_lastcwnd tu tp ts cb len ss fs st :
  lastcwnd (tcp_probe (snd (write_flow cfg tu tp ts cb len ss fs st)))
  = snd_cwnd tp.
Proof. reflexivity. Qed.

Lemma write_flow_flows tu tp ts cb len ss fs st :
  flows (snd (write_flow cfg tu tp ts cb len ss fs st)) = flows st.
Proof.
  unfold write_flow.
  destruct (tcp_probe_avail cfg (tcp_probe st) >? 1); reflexivity.
Qed.

Lemma write_flow_flow_count tu tp ts cb len ss fs st :
  flow_count (snd (write_flow cfg tu tp ts cb len ss fs st)) = flow_count st.
Proof.
  unfold write_flow.
  destruct (tcp_probe_avail cfg (tcp_probe st) >? 1); reflexivity.
Qed.

Lemma write_flow_lock tu tp ts cb len ss fs st :
  tcp_hash_lock (snd (write_flow cfg tu tp ts cb len ss fs st))
  = tcp_hash_lock st.
Proof.
  unfold write_flow.
  destruct (tcp_probe_avail cfg (tcp_probe st) >? 1); reflexivity.
Qed.

(** The counters other than the ring-full one are not touched. *)
Lemma write_flow_other_stats tu tp ts cb len ss fs st :
  let st' := snd (write_flow cfg tu tp ts cb len ss fs st) in
  ack_drop_purge (stat st') = ack_drop_purge (stat st)
  /\ conn_maxflow_limit (stat st') = conn_maxflow_limit (stat st)
  /\ reset_flows (stat st') = reset_flows (stat st).
Proof.
  cbn zeta. unfold write_flow.
  destruct (tcp_probe_avail cfg (tcp_probe st) >? 1); repeat split.
Qed.

End WriteFlow.

(** ** Ring indices *)

Section Ring.

Variable cfg : config.

Lemma ring_ok_pos p : ring_ok cfg p -> 0 < bufsize cfg.
Proof. intros (_ & H & _). lia. Qed.

Lemma used_mod p :
  ring_ok cfg p -> tcp_probe_used cfg p = (head p - tail p) mod bufsize cfg.
Proof.
  intros ((k & Hk & HC) & _). unfold tcp_probe_used.
  rewrite HC. apply land_mask. exact Hk.
Qed.

Lemma used_range p :
  ring_ok cfg p -> 0 <= tcp_probe_used cfg p < bufsize cfg.
Proof.
  intros Hok. rewrite used_mod by assumption.
  apply Z.mod_pos_bound. eapply ring_ok_pos. eassumption.
Qed.

(** The head is [used] slots after the tail. *)
Lemma head_after_tail p :
  ring_ok cfg p ->
  (tail p + tcp_probe_used cfg p) mod bufsize cfg = head p.
Proof.
  intros Hok. rewrite used_mod by assumption.
  destruct Hok as (_ & Hh & Ht & _).
  rewrite Zplus_mod_idemp_r.
  replace (tail p + (head p - tail p)) with (head p) by lia.
  apply Z.mod_small. exact Hh.
Qed.

(** Two offsets below the capacity reach distinct slots. *)
Lemma slot_index_inj C t i j :
  0 < C -> 0 <= i < C -> 0 <= j < C ->
  (t + i) mod C = (t + j) mod C -> i = j.
Proof.
  intros HC Hi Hj Heq.
  assert (Hd : (i - j) mod C = 0).
  { replace (i - j) with ((t + i) - (t + j)) by lia.
    rewrite Zminus_mod, Heq, Z.sub_diag. apply Z.mod_0_l. lia. }
  apply Z.mod_divide in Hd; [| lia].
  destruct Hd as [q Hq].
  assert (Hq0 : q = 0) by nia.
  subst q. lia.
Qed.

Lemma empty_ring_used p :
  ring_ok cfg p -> head p = tail p -> tcp_probe_used cfg p = 0.
Proof.
  intros Hok Heq. rewrite used_mod by assumption.
  rewrite Heq, Z.sub_diag. apply Z.mod_0_l.
  pose proof (ring_ok_pos _ Hok). lia.
Qed.

End Ring.

(** ** One push *)

Section Push.

Variable cfg : config.

Lemma push_refused tu tp ts cb len ss fs st :
  (tcp_probe_avail cfg (tcp_probe st) >? 1) = false ->
  let st' := snd (write_flow cfg tu tp ts cb len ss fs st) in
  ring_records cfg (tcp_probe st') = ring_records cfg (tcp_probe st)
  /\ head (tcp_probe st') = head (tcp_probe st)
  /\ tail (tcp_probe st') = tail (tcp_probe st)
  /\ log (tcp_probe st') = log (tcp_probe st)
  /\ ack_drop_ring_full (stat st') = ack_drop_ring_full (stat st) + 1.
Proof.
  intros H. cbn zeta. rewrite write_flow_refused by assumption.
  cbn. repeat split.
Qed.

Lemma push_room tu tp ts cb len ss fs st :
  ring_ok cfg (tcp_probe st) ->
  (tcp_probe_avail cfg (tcp_probe st) >? 1) = true ->
  let st' := snd (write_flow cfg tu tp ts cb len ss fs st) in
  ring_ok cfg (tcp_probe st')
  /\ tail (tcp_probe st') = tail (tcp_probe st)
  /\ tcp_probe_used cfg (tcp_probe st')
     = tcp_probe_used cfg (tcp_probe st) + 1
  /\ ring_records cfg (tcp_probe st')
     = ring_records cfg (tcp_probe st) ++ [fill_log tu tp ts cb len ss fs]
  /\ stat st' = stat st.
Proof.
  intros Hok Hav. cbn zeta. rewrite write_flow_room by assumption.
  set (p := tcp_probe st) in *.
  pose proof (ring_ok_pos _ _ Hok) as HC.
  pose proof (used_range _ _ Hok) as Hur.
  pose proof (used_mod _ _ Hok) as Hum.
  pose proof (head_after_tail _ _ Hok) as Hhead.
  destruct Hok as ((k & Hk & HCk) & Hh & Ht & Hlen).
  apply Z.gtb_lt in Hav. unfold tcp_probe_avail in Hav.
  assert (Hmask : forall z, Z.land z (bufsize cfg - 1) = z mod bufsize cfg).
  { intros z. rewrite HCk. apply land_mask. exact Hk. }
  set (r := fill_log tu tp ts cb len ss fs).
  set (p' := {| head := Z.land (head p + 1) (bufsize cfg - 1);
                tail := tail p; lastcwnd := snd_cwnd tp;
                log := <[Z.to_nat (head p) := r]> (log p) |}).
  change (tcp_probe (set_probe p' st)) with p'.
  change (stat (set_probe p' st)) with (stat st).
  assert (Hok' : ring_ok cfg p').
  { split; [exists k; auto |]. unfold p'; cbn.
    rewrite Hmask, length_insert. repeat split; try lia;
      apply Z.mod_pos_bound; lia. }
  assert (Hused' : tcp_probe_used cfg p' = tcp_probe_used cfg p + 1).
  { unfold tcp_probe_used at 1. unfold p'; cbn. rewrite !Hmask.
    rewrite Zminus_mod_idemp_l.
    replace (head p + 1 - tail p) with ((head p - tail p) + 1) by lia.
    rewrite <- Zplus_mod_idemp_l, <- Hum. apply Z.mod_small. lia. }
  split; [exact Hok' |]. split; [reflexivity |].
  split; [exact Hused' |]. split; [| reflexivity].
  unfold ring_records. rewrite Hused'.
  rewrite Z2Nat.inj_add by lia. change (Z.to_nat 1) with 1%nat.
  rewrite seq_app, map_app. cbn [seq map]. f_equal.
  - apply map_ext_in. intros i Hi. apply in_seq in Hi.
    unfold ring_slot, p'; cbn [tail log].
    apply list_lookup_total_insert_ne. intros Heq.
    apply Z2Nat.inj in Heq;
      [| lia | apply Z.mod_pos_bound; lia].
    rewrite <- Hhead in Heq.
    apply slot_index_inj in Heq; lia.
  - f_equal. unfold ring_slot, p'; cbn [tail log].
    rewrite Nat.add_0_l, Z2Nat.id by lia. rewrite Hhead.
    apply list_lookup_total_insert_eq. lia.
Qed.

End Push.

(** ** Runs of pushes *)

Section PushAll.

Variable cfg : config.

Lemma push_all_app l1 l2 st :
  push_all cfg (l1 ++ l2) st = push_all cfg l2 (push_all cfg l1 st).
Proof.
  revert st. induction l1 as [| a l1 IH]; intros st; cbn; [reflexivity |].
  apply IH.
Qed.

(** While the reserve margin is not reached every record is stored. *)
Lemma push_all_stored l : forall st,
  ring_ok cfg (tcp_probe st) ->
  tcp_probe_used cfg (tcp_probe st) + Z.of_nat (length l)
    <= bufsize cfg - 1 ->
  let st' := push_all cfg l st in
  ring_ok cfg (tcp_probe st')
  /\ tcp_probe_used cfg (tcp_probe st')
     = tcp_probe_used cfg (tcp_probe st) + Z.of_nat (length l)
  /\ ring_records cfg (tcp_probe st')
     = ring_records cfg (tcp_probe st) ++ map push_record l
  /\ stat st' = stat st.
Proof.
  induction l as [| a l IH]; intros st Hok Hfit; cbn zeta.
  - cbn [push_all length map]. rewrite app_nil_r.
    split; [assumption |]. split; [lia |]. split; reflexivity.
  - cbn [push_all]. cbn [length] in Hfit.
    assert (Hav : (tcp_probe_avail cfg (tcp_probe st) >? 1) = true).
    { apply Z.gtb_lt. unfold tcp_probe_avail. lia. }
    destruct (push_room cfg (p_tuple a) (p_tp a) (p_tstamp a)
                (p_cumulative a) (p_length a) (p_ssthresh a)
                (p_first_seq a) st Hok Hav)
      as (Hok1 & _ & Hu1 & Hr1 & Hs1).
    fold (push_call cfg a st) in Hok1, Hu1, Hr1, Hs1.
    destruct (IH (snd (push_call cfg a st)) Hok1 ltac:(lia))
      as (Hok2 & Hu2 & Hr2 & Hs2).
    split; [exact Hok2 |]. split; [cbn [length]; lia |].
    split; [| congruence].
    rewrite Hr2, Hr1. cbn [map]. rewrite <- app_assoc. reflexivity.
Qed.

(** Once fewer than two slots remain every record is refused. *)
Lemma push_all_refused l : forall st,
  tcp_probe_avail cfg (tcp_probe st) <= 1 ->
  let st' := push_all cfg l st in
  ring_records cfg (tcp_probe st') = ring_records cfg (tcp_probe st)
  /\ ack_drop_ring_full (stat st')
     = ack_drop_ring_full (stat st) + Z.of_nat (length l).
Proof.
  induction l as [| a l IH]; intros st Hfull; cbn zeta.
  - cbn. split; [reflexivity | lia].
  - cbn [push_all].
    assert (Hav : (tcp_probe_avail cfg (tcp_probe st) >? 1) = false).
    { rewrite Z.gtb_ltb. apply Z.ltb_ge. exact Hfull. }
    destruct (push_refused cfg (p_tuple a) (p_tp a) (p_tstamp a)
                (p_cumulative a) (p_length a) (p_ssthresh a)
                (p_first_seq a) st Hav)
      as (Hr1 & Hh1 & Ht1 & Hl1 & Hd1).
    fold (push_call cfg a st) in Hr1, Hh1, Ht1, Hl1, Hd1.
    assert (Hfull1 : tcp_probe_avail cfg (tcp_probe (snd (push_call cfg a st)))
                     <= 1).
    { unfold tcp_probe_avail, tcp_probe_used in *. rewrite Hh1, Ht1.
      exact Hfull. }
    destruct (IH _ Hfull1) as (Hr2 & Hd2).
    split; [congruence |]. cbn [length]. lia.
Qed.

(** From an empty ring: the first [bufsize - 1] records are kept and
    every later one is counted as a drop. *)
Lemma push_all_from_empty l st :
  ring_ok cfg (tcp_probe st) ->
  head (tcp_probe st) = tail (tcp_probe st) ->
  bufsize cfg - 1 <= Z.of_nat (length l) ->
  let st' := push_all cfg l st in
  ring_records cfg (tcp_probe st')
  = map push_record (take (Z.to_nat (bufsize cfg - 1)) l)
  /\ ack_drop_ring_full (stat st')
     = ack_drop_ring_full (stat st)
       + (Z.of_nat (length l) - (bufsize cfg - 1)).
Proof.
  intros Hok Hempty Hlen. cbn zeta.
  pose proof (ring_ok_pos _ _ Hok) as HC.
  pose proof (empty_ring_used _ _ Hok Hempty) as Hu0.
  set (k := Z.to_nat (bufsize cfg - 1)).
  assert (Hsplit : push_all cfg l st
                   = push_all cfg (drop k l) (push_all cfg (take k l) st)).
  { rewrite <- push_all_app, take_drop. reflexivity. }
  rewrite Hsplit.
  assert (Hk : Z.of_nat (length (take k l)) = bufsize cfg - 1).
  { rewrite length_take. unfold k. lia. }
  destruct (push_all_stored (take k l) st Hok ltac:(lia))
    as (Hok1 & Hu1 & Hr1 & Hs1).
  assert (Hfull : tcp_probe_avail cfg (tcp_probe (push_all cfg (take k l) st))
                  <= 1).
  { unfold tcp_probe_avail. lia. }
  destruct (push_all_refused (drop k l) _ Hfull) as (Hr2 & Hd2).
  split.
  - rewrite Hr2, Hr1. unfold ring_records at 1. rewrite Hu0. reflexivity.
  - rewrite Hd2, Hs1. rewrite length_drop. unfold k. lia.
Qed.

End PushAll.

(** ** The byte counter *)

Section Account.

Variables (tp : sock) (f : tcp_hash_flow).

Lemma account_bytes_last_seq_num :
  last_seq_num (account_bytes tp f) = snd_nxt tp.
Proof. reflexivity. Qed.

Lemma account_bytes_keeps :
  tuple (account_bytes tp f) = tuple f
  /\ tstamp (account_bytes tp f) = tstamp f
  /\ first_seq_num (account_bytes tp f) = first_seq_num f.
Proof. repeat split. Qed.

Lemma account_bytes_same :
  snd_nxt tp = last_seq_num f ->
  cumulative_bytes (account_bytes tp f) = cumulative_bytes f.
Proof.
  intros H. unfold account_bytes; cbn. rewrite H.
  rewrite Z.gtb_ltb, Z.ltb_irrefl, Z.eqb_refl. reflexivity.
Qed.

Lemma account_bytes_ahead :
  in_u32 (snd_nxt tp) -> in_u32 (last_seq_num f) ->
  last_seq_num f < snd_nxt tp ->
  cumulative_bytes (account_bytes tp f)
  = u64 (cumulative_bytes f + (snd_nxt tp - last_seq_num f)).
Proof.
  intros Hn Hl H. unfold account_bytes; cbn.
  rewrite Z.gtb_ltb. destruct (Z.ltb_spec (last_seq_num f) (snd_nxt tp));
    [| lia].
  rewrite u32_small by (unfold in_u32 in *; lia). reflexivity.
Qed.

(** On the wrap-around branch the constant is [UINT32_MAX]. *)
Lemma account_bytes_behind :
  in_u32 (snd_nxt tp) -> in_u32 (last_seq_num f) ->
  snd_nxt tp < last_seq_num f ->
  cumulative_bytes (account_bytes tp f)
  = u64 (cumulative_bytes f
         + ((UINT32_MAX - last_seq_num f) + snd_nxt tp)).
Proof.
  intros Hn Hl H. unfold account_bytes; cbn.
  rewrite Z.gtb_ltb. destruct (Z.ltb_spec (last_seq_num f) (snd_nxt tp));
    [lia |].
  destruct (Z.eqb_spec (snd_nxt tp) (last_seq_num f)); [lia |]. cbn.
  unfold in_u32, UINT32_MAX in *.
  rewrite (u32_small (4294967295 - last_seq_num f))
    by (unfold in_u32; lia).
  rewrite u32_small by (unfold in_u32; lia). reflexivity.
Qed.

(** Every update adds less than [2 ^ 32]: the counter cannot go down
    while it is at least that far from the end of [u64]. *)
Lemma account_bytes_no_wrap :
  0 <= cumulative_bytes f -> cumulative_bytes f + 2 ^ 32 <= 2 ^ 64 ->
  cumulative_bytes f <= cumulative_bytes (account_bytes tp f)
  /\ cumulative_bytes (account_bytes tp f) < cumulative_bytes f + 2 ^ 32.
Proof.
  intros H0 H1. unfold account_bytes; cbn.
  assert (Hd : forall z, 0 <= u32 z < 2 ^ 32)
    by (intros z; apply Z.mod_pos_bound; lia).
  destruct (snd_nxt tp >? last_seq_num f).
  - rewrite u64_small; [| unfold in_u64];
      specialize (Hd (snd_nxt tp - last_seq_num f)); lia.
  - destruct (snd_nxt tp =? last_seq_num f); cbn; [lia |].
    rewrite u64_small; [| unfold in_u64];
      specialize (Hd (u32 (UINT32_MAX - last_seq_num f) + snd_nxt tp)); lia.
Qed.

Lemma account_bytes_in_u64 :
  in_u64 (cumulative_bytes f) ->
  in_u64 (cumulative_bytes (account_bytes tp f)).
Proof.
  intros H. unfold account_bytes; cbn.
  destruct (snd_nxt tp >? last_seq_num f); [apply u64_bound |].
  destruct (snd_nxt tp =? last_seq_num f); cbn;
    [exact H | apply u64_bound].
Qed.

End Account.

(** ** The paths of [jtcp_rcv_established] *)

Lemma store_flow_twice tu f1 f2 st :
  store_flow tu f2 (store_flow tu f1 st) = store_flow tu f2 st.
Proof.
  unfold store_flow, set_flows; cbn. rewrite insert_insert_eq. reflexivity.
Qed.

Section Observed.

Variables (cfg : config) (sk : sock) (len now : Z) (st : state).

Let tu := sk_tuple sk.

Lemma rcv_filtered :
  port_filter cfg tu && cwnd_gate cfg sk st = false ->
  jtcp_rcv_established cfg sk len now st = st.
Proof.
  intros H. unfold jtcp_rcv_established. fold tu. rewrite H. reflexivity.
Qed.

Lemma rcv_lock_held :
  port_filter cfg tu = true -> cwnd_gate cfg sk st = true ->
  tcp_hash_lock st = true ->
  jtcp_rcv_established cfg sk len now st = stat_inc_ack_drop_purge st.
Proof.
  intros Hp Hg Hl. unfold jtcp_rcv_established. fold tu.
  rewrite Hp, Hg, Hl. reflexivity.
Qed.

Lemma rcv_rejected :
  port_filter cfg tu = true -> cwnd_gate cfg sk st = true ->
  tcp_hash_lock st = false ->
  tcp_flow_find tu st = None -> maxflow_reached cfg st = true ->
  jtcp_rcv_established cfg sk len now st = stat_inc_conn_maxflow_limit st.
Proof.
  intros Hp Hg Hl Hf Hm. unfold jtcp_rcv_established. fold tu.
  rewrite Hp, Hg, Hl, Hf, Hm. reflexivity.
Qed.

Lemma rcv_created :
  port_filter cfg tu = true -> cwnd_gate cfg sk st = true ->
  tcp_hash_lock st = false ->
  tcp_flow_find tu st = None -> maxflow_reached cfg st = false ->
  jtcp_rcv_established cfg sk len now st
  = snd (write_flow cfg tu sk now (cumulative_bytes (fresh_flow sk now))
           (u16 len) (cur_ssthresh sk) (first_seq_num (fresh_flow sk now))
           (set_flow_count (flow_count st + 1)
              (set_flows (<[tu := fresh_flow sk now]> (flows st)) st))).
Proof.
  intros Hp Hg Hl Hf Hm. unfold jtcp_rcv_established. fold tu.
  rewrite Hp, Hg, Hl, Hf, Hm. cbn [andb init_tcp_hash_flow].
  rewrite store_flow_twice.
  unfold store_flow, set_flows, set_flow_count; cbn.
  rewrite insert_insert_eq. reflexivity.
Qed.

Lemma rcv_tracked_gated f :
  port_filter cfg tu = true -> cwnd_gate cfg sk st = true ->
  tcp_hash_lock st = false ->
  tcp_flow_find tu st = Some f -> interval_gate cfg now f = false ->
  jtcp_rcv_established cfg sk len now st = st.
Proof.
  intros Hp Hg Hl Hf Hi. unfold jtcp_rcv_established. fold tu.
  rewrite Hp, Hg, Hl, Hf, Hi. reflexivity.
Qed.

Lemma rcv_tracked_written f :
  port_filter cfg tu = true -> cwnd_gate cfg sk st = true ->
  tcp_hash_lock st = false ->
  tcp_flow_find tu st = Some f -> interval_gate cfg now f = true ->
  let f' := account_bytes sk (set_tstamp now f) in
  jtcp_rcv_established cfg sk len now st
  = snd (write_flow cfg tu sk now (cumulative_bytes f') (u16 len)
           (cur_ssthresh sk) (first_seq_num f') (store_flow tu f' st)).
Proof.
  intros Hp Hg Hl Hf Hi. cbn zeta. unfold jtcp_rcv_established. fold tu.
  rewrite Hp, Hg, Hl, Hf, Hi. cbn [andb].
  rewrite store_flow_twice. reflexivity.
Qed.

End Observed.

(** ** The paths of [jtcp_done] *)

Section Closed.

Variables (cfg : config) (sk : sock) (now : Z) (st : state).

Let tu := sk_tuple sk.

Lemma done_filtered :
  port_filter cfg tu = false -> jtcp_done cfg sk now st = Done st.
Proof. intros H. unfold jtcp_done. fold tu. rewrite H. reflexivity. Qed.

Lemma done_lock_held :
  port_filter cfg tu = true -> tcp_hash_lock st = true ->
  jtcp_done cfg sk now st = Spin.
Proof.
  intros Hp Hl. unfold jtcp_done. fold tu. rewrite Hp, Hl. reflexivity.
Qed.

Lemma done_unknown :
  tcp_hash_lock st = false -> tcp_flow_find tu st = None ->
  jtcp_done cfg sk now st = Done st.
Proof.
  intros Hl Hf. unfold jtcp_done. fold tu. rewrite Hl, Hf.
  destruct (port_filter cfg tu); reflexivity.
Qed.

Lemma done_tracked f :
  port_filter cfg tu = true -> tcp_hash_lock st = false ->
  tcp_flow_find tu st = Some f ->
  let f' := account_bytes sk f in
  jtcp_done cfg sk now st
  = Done (tcp_hash_flow_free
            (unlink_flow tu
               (snd (write_flow cfg tu sk now (cumulative_bytes f')
                       UINT16_MAX (cur_ssthresh sk) (first_seq_num f')
                       (stat_inc_reset_flows (store_flow tu f' st)))))).
Proof.
  intros Hp Hl Hf. cbn zeta. unfold jtcp_done. fold tu.
  rewrite Hp, Hl, Hf. reflexivity.
Qed.

End Closed.

(** From [Done a = Done b] to [a = b] without unfolding either side. *)
Ltac done_eq :=
  let H := fresh "H" in
  intros H;
  match type of H with
  | Done ?a = Done ?b =>
      let E := fresh "E" in
      assert (E : a = b) by congruence; clear H; subst b
  end.

(** No path of [jtcp_done] counts a contended lock. *)
Lemma done_never_counts_contention cfg sk now st st' :
  jtcp_done cfg sk now st = Done st' ->
  ack_drop_purge (stat st') = ack_drop_purge (stat st).
Proof.
  destruct (port_filter cfg (sk_tuple sk)) eqn:Hp.
  2: { rewrite done_filtered by assumption. done_eq. reflexivity. }
  destruct (tcp_hash_lock st) eqn:Hl.
  { rewrite done_lock_held by assumption. discriminate. }
  destruct (tcp_flow_find (sk_tuple sk) st) as [f |] eqn:Hf.
  - rewrite (done_tracked _ _ _ _ f) by assumption. done_eq.
    cbn [tcp_hash_flow_free unlink_flow set_flow_count set_flows stat].
    match goal with
    | |- context [write_flow ?c ?t ?p ?ts ?cb ?l ?ss ?fs ?s] =>
        pose proof (write_flow_other_stats c t p ts cb l ss fs s) as Hw
    end.
    cbn zeta in Hw. destruct Hw as (Hw & _). rewrite Hw. reflexivity.
  - rewrite done_unknown by assumption. done_eq. reflexivity.
Qed.

(** ** The flow counter *)

Section Counted.

Variables (cfg : config).

Lemma counted_rcv sk len now st :
  counted st -> counted (jtcp_rcv_established cfg sk len now st).
Proof.
  unfold counted. intros Hc.
  destruct (port_filter cfg (sk_tuple sk) && cwnd_gate cfg sk st) eqn:Hg.
  2: { rewrite rcv_filtered by assumption. exact Hc. }
  apply andb_prop in Hg as [Hp Hw].
  destruct (tcp_hash_lock st) eqn:Hl.
  { rewrite rcv_lock_held by assumption. exact Hc. }
  destruct (tcp_flow_find (sk_tuple sk) st) as [f |] eqn:Hf.
  - destruct (interval_gate cfg now f) eqn:Hi.
    + rewrite (rcv_tracked_written _ _ _ _ _ f) by assumption.
      rewrite write_flow_flows, write_flow_flow_count. cbn.
      rewrite map_size_insert_Some; [exact Hc |].
      unfold tcp_flow_find in Hf. rewrite Hf. eauto.
    + rewrite (rcv_tracked_gated _ _ _ _ _ f) by assumption. exact Hc.
  - destruct (maxflow_reached cfg st) eqn:Hm.
    + rewrite rcv_rejected by assumption. exact Hc.
    + rewrite rcv_created by assumption.
      rewrite write_flow_flows, write_flow_flow_count. cbn.
      rewrite map_size_insert_None by exact Hf. lia.
Qed.

Lemma counted_done sk now st st' :
  counted st -> jtcp_done cfg sk now st = Done st' -> counted st'.
Proof.
  unfold counted. intros Hc.
  destruct (port_filter cfg (sk_tuple sk)) eqn:Hp.
  2: { rewrite done_filtered by assumption. done_eq. exact Hc. }
  destruct (tcp_hash_lock st) eqn:Hl.
  { rewrite done_lock_held by assumption. discriminate. }
  destruct (tcp_flow_find (sk_tuple sk) st) as [f |] eqn:Hf.
  - rewrite (done_tracked _ _ _ _ f) by assumption. done_eq.
    cbn [tcp_hash_flow_free unlink_flow set_flow_count set_flows
           flow_count flows].
    rewrite write_flow_flows, write_flow_flow_count. cbn.
    rewrite delete_insert_eq.
    unfold tcp_flow_find in Hf.
    rewrite map_size_delete_Some by (rewrite Hf; eauto).
    assert (Hpos : (0 < size (flows st))%nat).
    { destruct (size (flows st)) eqn:Hs; [| lia].
      apply map_size_empty_inv in Hs. rewrite Hs in Hf.
      rewrite lookup_empty in Hf. discriminate. }
    lia.
  - rewrite done_unknown by assumption. done_eq. exact Hc.
Qed.

Lemma counted_observe_all l : forall st,
  counted st -> counted (observe_all cfg l st).
Proof.
  induction l as [| e l IH]; intros st Hc; cbn; [exact Hc |].
  apply IH, counted_rcv, Hc.
Qed.

End Counted.

(** ** One write attempt, seen from the reader *)

Lemma write_flow_effect cfg tu tp ts cb len ss fs st :
  ring_ok cfg (tcp_probe st) ->
  let st' := snd (write_flow cfg tu tp ts cb len ss fs st) in
  let room := tcp_probe_avail cfg (tcp_probe st) >? 1 in
  ring_ok cfg (tcp_probe st')
  /\ ring_records cfg (tcp_probe st')
     = (if room
        then ring_records cfg (tcp_probe st) ++ [fill_log tu tp ts cb len ss fs]
        else ring_records cfg (tcp_probe st))
  /\ ack_drop_ring_full (stat st')
     = ack_drop_ring_full (stat st) + (if room then 0 else 1).
Proof.
  intros Hok. cbn zeta.
  destruct (tcp_probe_avail cfg (tcp_probe st) >? 1) eqn:Hav.
  - destruct (push_room cfg tu tp ts cb len ss fs st Hok Hav)
      as (Hok' & _ & _ & Hr & Hs).
    split; [exact Hok' |]. split; [exact Hr |]. rewrite Hs. lia.
  - destruct (push_refused cfg tu tp ts cb len ss fs st Hav)
      as (Hr & Hh & Ht & Hl & Hd).
    split; [| split; assumption].
    destruct Hok as (Hk & Hhd & Htl & Hlen).
    split; [exact Hk |]. rewrite Hh, Ht, Hl. auto.
Qed.

(** * Properties of the specification *)

(** ** C1: the three-case rule of the byte counter *)

(** C1. The rule adds [new - last] when the sequence number moved
    forward and nothing when it did not move, but on the wrap-around
    branch the code adds [(UINT32_MAX - last) + new], one less than
    [(2 ^ 32 - last) + new]. A flow is created at sequence number
    4294967290 and observed again, 50 ms later, at sequence number 10:
    sixteen bytes were sent, the counter advances by fifteen, in
    [jtcp_rcv_established] and in [jtcp_done] alike. *)
Theorem C1_wraparound_adds_one_less :
  let c := Ex.cfg 4 0 in
  let st1 :=
    jtcp_rcv_established c (Ex.conn 1 4294967290 10) 1000 0 (Ex.boot 4) in
  let st2 :=
    jtcp_rcv_established c (Ex.conn 1 10 11) 1000 (Ex.msec 50) st1 in
  Ex.bytes_of (Ex.conn 1 10 11) st1 = Some (4294967290, 4294967290)
  /\ (2 ^ 32 - 4294967290) + 10 = 16
  /\ Ex.bytes_of (Ex.conn 1 10 11) st2 = Some (4294967290 + 15, 10)
  /\ (exists st3,
        jtcp_done c (Ex.conn 1 10 11) (Ex.msec 50) st1 = Done st3
        /\ map l_snd_nxt (ring_records c (tcp_probe st3))
           = [4294967290; 4294967290 + 15]).
Proof.
  cbn zeta. split; [vm_compute; reflexivity |].
  split; [reflexivity |]. split; [vm_compute; reflexivity |].
  eexists. split; [reflexivity |]. vm_compute. reflexivity.
Qed.

(** ** C2: updates when no record is written *)

(** C2, as stated, fails: a tracked flow (last sequence number 100) is
    observed 5 ms after its creation, under a 10 ms interval, with a
    new congestion window and sequence number 5100. The port filter
    passes and the table lock is free, yet neither [cumulative_bytes]
    nor [last_seq_num] is updated: the event leaves the state as it
    was. *)
Lemma C2_counterexample :
  let c := Ex.cfg 4 0 in
  let sk := Ex.conn 1 5100 11 in
  let st := jtcp_rcv_established c (Ex.conn 1 100 10) 1000 0 (Ex.boot 4) in
  let st' := jtcp_rcv_established c sk 1000 (Ex.msec 5) st in
  port_filter c (sk_tuple sk) = true
  /\ cwnd_gate c sk st = true
  /\ tcp_hash_lock st = false
  /\ Ex.bytes_of sk st = Some (100, 100)
  /\ snd_nxt sk = 5100
  /\ Ex.bytes_of sk st' = Some (100, 100)
  /\ ~ (Ex.bytes_of sk st' = Some (100 + (5100 - 100), 5100)).
Proof.
  cbn zeta. repeat split; try (vm_compute; reflexivity).
  vm_compute. discriminate.
Qed.

(** C2, amended. For an observation of a tracked flow that passed the
    port filter and the window gate with the table lock free, the byte
    counter and the last sequence number are updated exactly when the
    interval gate lets the event be written. When the gate is closed the
    event changes nothing; when it is open the entry is stamped, updated
    by [account_bytes] and one write to the ring is attempted with the
    updated count. *)
Theorem C2_update_only_when_written cfg sk len now st f :
  port_filter cfg (sk_tuple sk) = true ->
  cwnd_gate cfg sk st = true ->
  tcp_hash_lock st = false ->
  tcp_flow_find (sk_tuple sk) st = Some f ->
  let st' := jtcp_rcv_established cfg sk len now st in
  let f' := account_bytes sk (set_tstamp now f) in
  if interval_gate cfg now f then
    tcp_flow_find (sk_tuple sk) st' = Some f'
    /\ last_seq_num f' = snd_nxt sk
    /\ st' = snd (write_flow cfg (sk_tuple sk) sk now (cumulative_bytes f')
                    (u16 len) (cur_ssthresh sk) (first_seq_num f')
                    (store_flow (sk_tuple sk) f' st))
  else st' = st.
Proof.
  intros Hp Hg Hl Hf. cbn zeta.
  destruct (interval_gate cfg now f) eqn:Hi.
  - rewrite (rcv_tracked_written _ _ _ _ _ f) by assumption.
    split; [| split; reflexivity].
    unfold tcp_flow_find. rewrite write_flow_flows. cbn.
    apply lookup_insert_eq.
  - apply (rcv_tracked_gated _ _ _ _ _ f); assumption.
Qed.

Lemma C2_update_only_when_written_witness :
  let c := Ex.cfg 4 0 in
  let sk := Ex.conn 1 5100 11 in
  let st := jtcp_rcv_established c (Ex.conn 1 100 10) 1000 0 (Ex.boot 4) in
  jtcp_rcv_established c sk 1000 (Ex.msec 5) st = st.
Proof.
  cbn zeta.
  refine (C2_update_only_when_written (Ex.cfg 4 0) (Ex.conn 1 5100 11) 1000
            (Ex.msec 5) _
            {| tuple := sk_tuple (Ex.conn 1 5100 11); tstamp := 0;
               cumulative_bytes := 100; last_seq_num := 100;
               first_seq_num := 100 |} _ _ _ _);
    vm_compute; reflexivity.
Defined.

(** ** C3: the first observation of an identity *)

(** C3, as stated, fails: on the first observation of an identity the
    handler sets [should_write_flow] and calls [write_flow]. From the
    start-up state, with room in the ring, the event that creates the
    flow leaves one record in the ring. *)
Lemma C3_counterexample :
  let c := Ex.cfg 4 0 in
  let sk := Ex.conn 1 100 10 in
  let st' := jtcp_rcv_established c sk 1000 0 (Ex.boot 4) in
  tcp_flow_find (sk_tuple sk) (Ex.boot 4) = None
  /\ maxflow_reached c (Ex.boot 4) = false
  /\ ring_records c (tcp_probe (Ex.boot 4)) = []
  /\ Ex.lengths c st' = [1000]
  /\ ~ (ring_records c (tcp_probe st') = ring_records c (tcp_probe (Ex.boot 4))).
Proof.
  cbn zeta. repeat split; try (vm_compute; reflexivity).
  vm_compute. discriminate.
Qed.

(** C3, amended. The first observation of an identity that is not in
    the table, admission not being rejected, creates the flow entry with
    [first_seq_num] the observed sequence number and the time stamp of
    the event, counts the flow, and makes one write attempt for that
    event: the record, carrying the segment length of the event, is
    appended when more than one slot is available and counted as a
    ring-full drop otherwise. *)
Theorem C3_first_observation_creates_and_writes cfg sk len now st :
  port_filter cfg (sk_tuple sk) = true ->
  cwnd_gate cfg sk st = true ->
  tcp_hash_lock st = false ->
  tcp_flow_find (sk_tuple sk) st = None ->
  maxflow_reached cfg st = false ->
  ring_ok cfg (tcp_probe st) ->
  let st' := jtcp_rcv_established cfg sk len now st in
  let f := fresh_flow sk now in
  let r := fill_log (sk_tuple sk) sk now (cumulative_bytes f) (u16 len)
             (cur_ssthresh sk) (snd_nxt sk) in
  let room := tcp_probe_avail cfg (tcp_probe st) >? 1 in
  tcp_flow_find (sk_tuple sk) st' = Some f
  /\ first_seq_num f = snd_nxt sk
  /\ tstamp f = now
  /\ flow_count st' = flow_count st + 1
  /\ l_length r = u16 len
  /\ ring_records cfg (tcp_probe st')
     = (if room then ring_records cfg (tcp_probe st) ++ [r]
        else ring_records cfg (tcp_probe st))
  /\ ack_drop_ring_full (stat st')
     = ack_drop_ring_full (stat st) + (if room then 0 else 1).
Proof.
  intros Hp Hg Hl Hf Hm Hok. cbn zeta.
  rewrite rcv_created by assumption.
  split.
  { unfold tcp_flow_find. rewrite write_flow_flows. cbn.
    apply lookup_insert_eq. }
  split; [reflexivity |]. split; [reflexivity |].
  split; [rewrite write_flow_flow_count; reflexivity |].
  split; [reflexivity |].
  match goal with
  | |- context [write_flow ?c ?t ?p ?ts ?cb ?l ?ss ?fs ?s] =>
      pose proof (write_flow_effect c t p ts cb l ss fs s Hok) as Hw
  end.
  cbn zeta in Hw. destruct Hw as (_ & Hr & Hd). split; assumption.
Qed.

Lemma C3_first_observation_creates_and_writes_witness :
  let c := Ex.cfg 4 0 in
  let sk := Ex.conn 1 100 10 in
  let st' := jtcp_rcv_established c sk 1000 0 (Ex.boot 4) in
  tcp_flow_find (sk_tuple sk) st' = Some (fresh_flow sk 0)
  /\ flow_count st' = 1.
Proof.
  cbn zeta.
  assert (Hok : ring_ok (Ex.cfg 4 0) (tcp_probe (Ex.boot 4))).
  { split; [exists 2; split; [lia | reflexivity] |].
    cbn. repeat split; lia. }
  destruct (C3_first_observation_creates_and_writes (Ex.cfg 4 0)
              (Ex.conn 1 100 10) 1000 0 (Ex.boot 4)
              eq_refl eq_refl eq_refl eq_refl eq_refl Hok)
    as (H1 & _ & _ & H4 & _).
  split; [exact H1 | exact H4].
Defined.

(** ** C4: the close event *)

(** C4, as stated, fails when the ring is at its reserve margin: the
    close of a tracked flow then stores no terminal record, [write_flow]
    counting a ring-full drop instead, and the flow is unlinked and
    freed all the same. In a ring of two slots holding one record, the
    close of the first of two tracked flows leaves the ring with that
    one record, none of length [UINT16_MAX], and the flow is gone. *)
Lemma C4_counterexample :
  let c := Ex.cfg 2 0 in
  let sk := Ex.conn 1 5100 12 in
  exists st',
    is_Some (tcp_flow_find (sk_tuple sk) Ex.two_flows)
    /\ port_filter c (sk_tuple sk) = true
    /\ jtcp_done c sk (Ex.msec 50) Ex.two_flows = Done st'
    /\ Ex.lengths c Ex.two_flows = [1000]
    /\ Ex.lengths c st' = [1000]
    /\ ~ In UINT16_MAX (Ex.lengths c st')
    /\ ack_drop_ring_full (stat st')
       = ack_drop_ring_full (stat Ex.two_flows) + 1
    /\ tcp_flow_find (sk_tuple sk) st' = None.
Proof.
  cbn zeta. eexists.
  split; [vm_compute; eauto |]. split; [reflexivity |].
  split; [reflexivity |]. split; [vm_compute; reflexivity |].
  split; [vm_compute; reflexivity |].
  split; [vm_compute; intros [H | []]; discriminate |].
  split; vm_compute; reflexivity.
Qed.

(** C4, amended. A close event that passes the port filter, for an
    identity in the table, makes exactly one write attempt whatever the
    interval, the capture mode and the last written window are; the
    record carries the updated byte count and the length [UINT16_MAX],
    it is appended when the ring has more than one slot available and
    counted as a ring-full drop otherwise. In either case the entry is
    then unlinked from the table and freed, and [reset_flows] is
    counted. For an identity that is not in the table the handler
    returns with the state unchanged. *)
Theorem C4_close_event cfg sk now st :
  tcp_hash_lock st = false ->
  ring_ok cfg (tcp_probe st) ->
  match tcp_flow_find (sk_tuple sk) st with
  | Some f =>
      port_filter cfg (sk_tuple sk) = true ->
      let f' := account_bytes sk f in
      let r := fill_log (sk_tuple sk) sk now (cumulative_bytes f') UINT16_MAX
                 (cur_ssthresh sk) (first_seq_num f) in
      let room := tcp_probe_avail cfg (tcp_probe st) >? 1 in
      exists st',
        jtcp_done cfg sk now st = Done st'
        /\ l_length r = UINT16_MAX
        /\ ring_records cfg (tcp_probe st')
           = (if room then ring_records cfg (tcp_probe st) ++ [r]
              else ring_records cfg (tcp_probe st))
        /\ ack_drop_ring_full (stat st')
           = ack_drop_ring_full (stat st) + (if room then 0 else 1)
        /\ flows st' = delete (sk_tuple sk) (flows st)
        /\ tcp_flow_find (sk_tuple sk) st' = None
        /\ flow_count st' = flow_count st - 1
        /\ reset_flows (stat st') = reset_flows (stat st) + 1
  | None => jtcp_done cfg sk now st = Done st
  end.
Proof.
  intros Hl Hok.
  destruct (tcp_flow_find (sk_tuple sk) st) as [f |] eqn:Hf.
  2: { apply done_unknown; assumption. }
  intros Hp. cbn zeta. eexists. split.
  { apply (done_tracked _ _ _ _ f); assumption. }
  cbn [tcp_hash_flow_free unlink_flow set_flow_count set_flows
         tcp_probe stat flows flow_count].
  match goal with
  | |- context [write_flow ?c ?t ?p ?ts ?cb ?l ?ss ?fs ?s] =>
      pose proof (write_flow_effect c t p ts cb l ss fs s Hok) as Hw;
      pose proof (write_flow_other_stats c t p ts cb l ss fs s) as Hs
  end.
  cbn zeta in Hw, Hs. destruct Hw as (_ & Hr & Hd).
  destruct Hs as (_ & _ & Hrs).
  split; [reflexivity |]. split; [exact Hr |]. split; [exact Hd |].
  rewrite write_flow_flows, write_flow_flow_count.
  cbn [stat_inc_reset_flows store_flow set_stat set_flows flows flow_count].
  rewrite delete_insert_eq.
  split; [reflexivity |].
  split; [unfold tcp_flow_find; cbn; apply lookup_delete_eq |].
  split; [reflexivity |]. rewrite Hrs. reflexivity.
Qed.

Lemma C4_close_event_witness :
  let c := Ex.cfg 4 0 in
  let sk := Ex.conn 1 5100 10 in
  let st := jtcp_rcv_established c (Ex.conn 1 100 10) 1000 0 (Ex.boot 4) in
  exists st',
    jtcp_done c sk (Ex.msec 1) st = Done st'
    /\ Ex.lengths c st' = [1000; 65535]
    /\ flows st' = ∅.
Proof.
  cbn zeta.
  set (c := Ex.cfg 4 0). set (sk := Ex.conn 1 5100 10).
  set (st := jtcp_rcv_established c (Ex.conn 1 100 10) 1000 0 (Ex.boot 4)).
  assert (Hok : ring_ok c (tcp_probe st)).
  { split; [exists 2; split; [lia | reflexivity] |].
    vm_compute. repeat split; first [reflexivity | discriminate]. }
  pose proof (C4_close_event c sk (Ex.msec 1) st eq_refl Hok) as H.
  assert (Hf : tcp_flow_find (sk_tuple sk) st = Some (fresh_flow (Ex.conn 1 100 10) 0))
    by (vm_compute; reflexivity).
  rewrite Hf in H. specialize (H eq_refl). cbn zeta in H.
  destruct H as (st' & Hd & _ & Hr & _ & Hfl & _).
  exists st'. split; [exact Hd |]. split.
  - unfold Ex.lengths. rewrite Hr. vm_compute. reflexivity.
  - rewrite Hfl. vm_compute. reflexivity.
Defined.

(** ** C5: the ring under overflow *)

(** C5, as stated, fails: five records pushed into an empty ring of
    capacity four, with no reader, leave three records in the ring (the
    first three) and two counted drops, not four records and one drop.
    The push that finds fewer than two slots available is refused, so
    one slot always stays unused. *)
Lemma C5_counterexample :
  let c := Ex.cfg 4 0 in
  let st' := push_all c [Ex.rec 1; Ex.rec 2; Ex.rec 3; Ex.rec 4; Ex.rec 5]
               (Ex.boot 4) in
  Ex.lengths c st' = [1; 2; 3]
  /\ length (ring_records c (tcp_probe st')) <> 4%nat
  /\ ack_drop_ring_full (stat st') = 2
  /\ ack_drop_ring_full (stat st') <> 5 - 4.
Proof.
  cbn zeta. repeat split; try (vm_compute; reflexivity);
    vm_compute; discriminate.
Qed.

(** C5, amended. After [N >= C - 1] pushes into an empty ring of
    capacity [C] with no reader, exactly [C - 1] records are retained,
    the earliest pushed, and the ring-full counter has advanced by
    [N - (C - 1)]. A push is refused exactly when fewer than two slots
    are available; the refused record is dropped, the ring keeps its
    content, and [write_flow] returns 0 in either case. *)
Theorem C5_ring_keeps_earliest cfg l st :
  ring_ok cfg (tcp_probe st) ->
  head (tcp_probe st) = tail (tcp_probe st) ->
  bufsize cfg - 1 <= Z.of_nat (length l) ->
  let st' := push_all cfg l st in
  ring_records cfg (tcp_probe st')
  = map push_record (take (Z.to_nat (bufsize cfg - 1)) l)
  /\ Z.of_nat (length (ring_records cfg (tcp_probe st'))) = bufsize cfg - 1
  /\ ack_drop_ring_full (stat st')
     = ack_drop_ring_full (stat st)
       + (Z.of_nat (length l) - (bufsize cfg - 1))
  /\ (forall a s,
        ring_ok cfg (tcp_probe s) ->
        fst (push_call cfg a s) = 0
        /\ ring_records cfg (tcp_probe (snd (push_call cfg a s)))
           = (if tcp_probe_avail cfg (tcp_probe s) <? 2
              then ring_records cfg (tcp_probe s)
              else ring_records cfg (tcp_probe s) ++ [push_record a])
        /\ ack_drop_ring_full (stat (snd (push_call cfg a s)))
           = ack_drop_ring_full (stat s)
             + (if tcp_probe_avail cfg (tcp_probe s) <? 2 then 1 else 0)).
Proof.
  intros Hok Hempty Hlen. cbn zeta.
  destruct (push_all_from_empty cfg l st Hok Hempty Hlen) as (Hr & Hd).
  pose proof (ring_ok_pos _ _ Hok) as HC.
  split; [exact Hr |]. split.
  { rewrite Hr, length_map, length_take. lia. }
  split; [exact Hd |].
  intros a s Hs. split; [reflexivity |].
  pose proof (write_flow_effect cfg (p_tuple a) (p_tp a) (p_tstamp a)
                (p_cumulative a) (p_length a) (p_ssthresh a) (p_first_seq a)
                s Hs) as Hw.
  cbn zeta in Hw. destruct Hw as (_ & Hr' & Hd').
  fold (push_call cfg a s) in Hr', Hd'. fold (push_record a) in Hr'.
  rewrite Hr', Hd'. rewrite Z.gtb_ltb.
  destruct (Z.ltb_spec 1 (tcp_probe_avail cfg (tcp_probe s)));
    destruct (Z.ltb_spec (tcp_probe_avail cfg (tcp_probe s)) 2);
    try lia; split; reflexivity.
Qed.

Lemma C5_ring_keeps_earliest_witness :
  let c := Ex.cfg 4 0 in
  let l := [Ex.rec 1; Ex.rec 2; Ex.rec 3; Ex.rec 4; Ex.rec 5] in
  ring_records c (tcp_probe (push_all c l (Ex.boot 4)))
  = map push_record [Ex.rec 1; Ex.rec 2; Ex.rec 3]
  /\ ack_drop_ring_full (stat (push_all c l (Ex.boot 4))) = 2.
Proof.
  cbn zeta.
  assert (Hok : ring_ok (Ex.cfg 4 0) (tcp_probe (Ex.boot 4))).
  { split; [exists 2; split; [lia | reflexivity] |].
    cbn. repeat split; lia. }
  destruct (C5_ring_keeps_earliest (Ex.cfg 4 0)
              [Ex.rec 1; Ex.rec 2; Ex.rec 3; Ex.rec 4; Ex.rec 5]
              (Ex.boot 4) Hok eq_refl ltac:(cbn; lia))
    as (Hr & _ & Hd & _).
  split; [exact Hr | exact Hd].
Defined.

(** ** C6: admission *)

(** What an observation of an unseen identity can do to the table when
    the limit is reached: nothing. *)
Lemma rcv_unseen_at_limit cfg sk len now st :
  tcp_flow_find (sk_tuple sk) st = None ->
  maxflow_reached cfg st = true ->
  let st' := jtcp_rcv_established cfg sk len now st in
  flows st' = flows st
  /\ flow_count st' = flow_count st
  /\ tcp_probe st' = tcp_probe st.
Proof.
  intros Hf Hm. cbn zeta.
  destruct (port_filter cfg (sk_tuple sk) && cwnd_gate cfg sk st) eqn:Hg.
  2: { rewrite rcv_filtered by assumption. repeat split. }
  apply andb_prop in Hg as [Hp Hw].
  destruct (tcp_hash_lock st) eqn:Hl.
  - rewrite rcv_lock_held by assumption. repeat split.
  - rewrite rcv_rejected by assumption. repeat split.
Qed.

(** C6, as stated, fails when the event does not reach the admission
    test: with one flow tracked under [maxflows = 1], an observation of
    an unseen identity whose congestion window equals the last written
    one is dropped by the window gate, before the lookup, and counts no
    rejection. *)
Lemma C6_counterexample :
  let c := Ex.cfg 4 1 in
  let sk := Ex.conn 2 700 10 in
  let st := jtcp_rcv_established c (Ex.conn 1 100 10) 1000 0 (Ex.boot 4) in
  let st' := jtcp_rcv_established c sk 1000 (Ex.msec 50) st in
  maxflows c = 1
  /\ size (flows st) = 1%nat
  /\ tcp_flow_find (sk_tuple sk) st = None
  /\ st' = st
  /\ conn_maxflow_limit (stat st') = conn_maxflow_limit (stat st)
  /\ ~ (conn_maxflow_limit (stat st') = conn_maxflow_limit (stat st) + 1).
Proof.
  cbn zeta. repeat split; try (vm_compute; reflexivity).
  vm_compute. discriminate.
Qed.

(** C6, amended. With [maxflows = K > 0] and [K] or more flows in the
    table, an observation of an unseen identity creates no entry and
    leaves the table, the flow counter and the ring as they were; it
    counts one [conn_maxflow_limit], and changes nothing else, exactly
    when it reaches the lookup (filter and window gate passed, table
    lock free), and counts no rejection otherwise. With [maxflows = 0]
    no rejection is ever counted, and such an event that reaches the
    lookup always creates the entry. *)
Theorem C6_admission_bound cfg sk len now st :
  counted st ->
  tcp_flow_find (sk_tuple sk) st = None ->
  let st' := jtcp_rcv_established cfg sk len now st in
  let reaches_lookup :=
    port_filter cfg (sk_tuple sk) && cwnd_gate cfg sk st
    && negb (tcp_hash_lock st) in
  (0 < maxflows cfg -> maxflows cfg <= Z.of_nat (size (flows st)) ->
   flows st' = flows st
   /\ flow_count st' = flow_count st
   /\ tcp_probe st' = tcp_probe st
   /\ conn_maxflow_limit (stat st')
      = conn_maxflow_limit (stat st) + (if reaches_lookup then 1 else 0)
   /\ (reaches_lookup = true -> st' = stat_inc_conn_maxflow_limit st))
  /\ (maxflows cfg = 0 ->
      conn_maxflow_limit (stat st') = conn_maxflow_limit (stat st)
      /\ (reaches_lookup = true ->
          tcp_flow_find (sk_tuple sk) st' = Some (fresh_flow sk now)
          /\ size (flows st') = S (size (flows st)))).
Proof.
  intros Hc Hf. cbn zeta. split.
  - intros HK Hfull.
    assert (Hm : maxflow_reached cfg st = true).
    { unfold maxflow_reached. unfold counted in Hc.
      apply andb_true_intro. split; [apply Z.gtb_lt; lia |].
      apply Z.geb_le. lia. }
    destruct (rcv_unseen_at_limit cfg sk len now st Hf Hm) as (H1 & H2 & H3).
    repeat (split; [assumption |]).
    destruct (port_filter cfg (sk_tuple sk) && cwnd_gate cfg sk st) eqn:Hg.
    2: { rewrite rcv_filtered by assumption. cbn [andb].
         split; [lia | discriminate]. }
    apply andb_prop in Hg as [Hp Hw].
    destruct (tcp_hash_lock st) eqn:Hl; cbn [andb negb].
    + rewrite rcv_lock_held by assumption. split; [cbn; lia | discriminate].
    + rewrite rcv_rejected by assumption. split; [reflexivity |].
      intros _. reflexivity.
  - intros H0.
    assert (Hm : maxflow_reached cfg st = false).
    { unfold maxflow_reached. rewrite H0. reflexivity. }
    destruct (port_filter cfg (sk_tuple sk) && cwnd_gate cfg sk st) eqn:Hg.
    2: { rewrite rcv_filtered by assumption. cbn [andb].
         split; [reflexivity | discriminate]. }
    apply andb_prop in Hg as [Hp Hw].
    destruct (tcp_hash_lock st) eqn:Hl; cbn [andb negb].
    + rewrite rcv_lock_held by assumption.
      split; [reflexivity | discriminate].
    + rewrite rcv_created by assumption.
      match goal with
      | |- context [write_flow ?c ?t ?p ?ts ?cb ?l ?ss ?fs ?s] =>
          pose proof (write_flow_other_stats c t p ts cb l ss fs s) as Hs
      end.
      cbn zeta in Hs. destruct Hs as (_ & Hs & _).
      split; [rewrite Hs; reflexivity |]. intros _.
      unfold tcp_flow_find. rewrite write_flow_flows.
      cbn [set_flow_count set_flows flows].
      split; [apply lookup_insert_eq |].
      apply map_size_insert_None; exact Hf.
Qed.

Lemma C6_admission_bound_witness :
  let c := Ex.cfg 4 1 in
  let st := jtcp_rcv_established c (Ex.conn 1 100 10) 1000 0 (Ex.boot 4) in
  let st' := jtcp_rcv_established c (Ex.conn 2 700 11) 1000 (Ex.msec 1) st in
  flows st' = flows st
  /\ conn_maxflow_limit (stat st') = conn_maxflow_limit (stat st) + 1.
Proof.
  cbn zeta.
  set (c := Ex.cfg 4 1).
  set (st := jtcp_rcv_established c (Ex.conn 1 100 10) 1000 0 (Ex.boot 4)).
  assert (Hc : counted st) by (vm_compute; reflexivity).
  assert (Hf : tcp_flow_find (sk_tuple (Ex.conn 2 700 11)) st = None)
    by (vm_compute; reflexivity).
  destruct (C6_admission_bound c (Ex.conn 2 700 11) 1000 (Ex.msec 1) st Hc Hf)
    as (H & _).
  destruct H as (H1 & _ & _ & H4 & _).
  - vm_compute. reflexivity.
  - vm_compute. discriminate.
  - split; [exact H1 |]. exact H4.
Defined.
(** ** C7: the table lock *)

(** C7, as stated, fails for the close handler: [jtcp_done] takes the
    table lock with [spin_lock]. While the purge holds the lock a close
    event is not skipped and not counted; the handler waits for the
    lock. *)
Lemma C7_counterexample :
  let c := Ex.cfg 4 0 in
  let sk := Ex.conn 1 5100 11 in
  let st :=
    Ex.lock (jtcp_rcv_established c (Ex.conn 1 100 10) 1000 0 (Ex.boot 4)) in
  tcp_hash_lock st = true
  /\ port_filter c (sk_tuple sk) = true
  /\ jtcp_done c sk (Ex.msec 50) st = Spin
  /\ jtcp_done c sk (Ex.msec 50) st <> Done (stat_inc_ack_drop_purge st).
Proof.
  cbn zeta. repeat split; try (vm_compute; reflexivity).
  vm_compute. discriminate.
Qed.

(** C7, amended. The observation handler tries the table lock without
    blocking, once the port filter and the window gate have passed; when
    the lock is held it skips the event, counts one [ack_drop_purge] and
    leaves the table, the flow counter and the ring unchanged. The close
    handler takes the lock with a blocking [spin_lock]: while the lock
    is held it waits, it does not skip, and on no path does it count
    [ack_drop_purge]. *)
Theorem C7_lock_contention cfg sk len now st :
  tcp_hash_lock st = true ->
  port_filter cfg (sk_tuple sk) = true ->
  let st' := jtcp_rcv_established cfg sk len now st in
  (if cwnd_gate cfg sk st
   then st' = stat_inc_ack_drop_purge st
        /\ ack_drop_purge (stat st') = ack_drop_purge (stat st) + 1
   else st' = st)
  /\ flows st' = flows st
  /\ flow_count st' = flow_count st
  /\ tcp_probe st' = tcp_probe st
  /\ jtcp_done cfg sk now st = Spin
  /\ (forall sk0 now0 st0 st1,
        jtcp_done cfg sk0 now0 st0 = Done st1 ->
        ack_drop_purge (stat st1) = ack_drop_purge (stat st0)).
Proof.
  intros Hl Hp. cbn zeta.
  assert (Hrcv : jtcp_rcv_established cfg sk len now st
                 = if cwnd_gate cfg sk st then stat_inc_ack_drop_purge st
                   else st).
  { destruct (cwnd_gate cfg sk st) eqn:Hg.
    - apply rcv_lock_held; assumption.
    - apply rcv_filtered. rewrite Hp, Hg. reflexivity. }
  rewrite Hrcv.
  split; [destruct (cwnd_gate cfg sk st); [split |]; reflexivity |].
  split; [destruct (cwnd_gate cfg sk st); reflexivity |].
  split; [destruct (cwnd_gate cfg sk st); reflexivity |].
  split; [destruct (cwnd_gate cfg sk st); reflexivity |].
  split; [apply done_lock_held; assumption |].
  intros sk0 now0 st0 st1. apply done_never_counts_contention.
Qed.

Lemma C7_lock_contention_witness :
  let c := Ex.cfg 4 0 in
  let sk := Ex.conn 1 5100 11 in
  let st :=
    Ex.lock (jtcp_rcv_established c (Ex.conn 1 100 10) 1000 0 (Ex.boot 4)) in
  jtcp_rcv_established c sk 1000 (Ex.msec 50) st = stat_inc_ack_drop_purge st
  /\ jtcp_done c sk (Ex.msec 50) st = Spin.
Proof.
  cbn zeta.
  destruct (C7_lock_contention (Ex.cfg 4 0) (Ex.conn 1 5100 11) 1000
              (Ex.msec 50)
              (Ex.lock (jtcp_rcv_established (Ex.cfg 4 0) (Ex.conn 1 100 10)
                          1000 0 (Ex.boot 4)))
              eq_refl eq_refl)
    as (H1 & _ & _ & _ & H5 & _).
  split; [exact (proj1 H1) | exact H5].
Defined.

(** ** C9 and C10: the two gates *)

(** With change-only capture, an observation whose window equals the
    last written one touches nothing. *)
Lemma rcv_same_cwnd cfg sk len now st :
  full cfg = false -> snd_cwnd sk = lastcwnd (tcp_probe st) ->
  jtcp_rcv_established cfg sk len now st = st.
Proof.
  intros Hfull Hc. apply rcv_filtered. unfold cwnd_gate.
  rewrite Hfull, Hc, Z.eqb_refl. cbn. apply andb_false_r.
Qed.





(** C10. [write_flow] assigns the window of the socket it was called for
    to the single [tcp_probe.lastcwnd], whether the record was stored or
    dropped for lack of room, and the window gate of
    [jtcp_rcv_established] reads that same variable for every flow.
    Hence, with change-only capture, after a write attempt for one
    socket an observation of any socket, of whatever identity, with the
    same congestion window is suppressed: it leaves the state
    unchanged. *)
Theorem C10_lastcwnd_is_global cfg tu1 tp1 ts cb len1 ss fs st sk2 len2 now2 :
  full cfg = false ->
  snd_cwnd sk2 = snd_cwnd tp1 ->
  let st1 := snd (write_flow cfg tu1 tp1 ts cb len1 ss fs st) in
  lastcwnd (tcp_probe st1) = snd_cwnd tp1
  /\ ack_drop_ring_full (stat st1)
     = ack_drop_ring_full (stat st)
       + (if tcp_probe_avail cfg (tcp_probe st) >? 1 then 0 else 1)
  /\ cwnd_gate cfg sk2 st1 = false
  /\ jtcp_rcv_established cfg sk2 len2 now2 st1 = st1.
Proof.
  intros Hfull Hc. cbn zeta.
  split; [apply write_flow_lastcwnd |]. split.
  { unfold write_flow.
    destruct (tcp_probe_avail cfg (tcp_probe st) >? 1); cbn; lia. }
  split.
  - unfold cwnd_gate. rewrite Hfull, write_flow_lastcwnd, Hc, Z.eqb_refl.
    reflexivity.
  - apply rcv_same_cwnd; [assumption |].
    rewrite write_flow_lastcwnd. exact Hc.
Qed.

Lemma C10_lastcwnd_is_global_witness :
  let c := Ex.cfg 2 0 in
  let sk1 := Ex.conn 1 5100 12 in
  let sk2 := Ex.conn 2 900 12 in
  let st1 :=
    snd (write_flow c (sk_tuple sk1) sk1 (Ex.msec 50) 5100 1000 20 100
           Ex.two_flows) in
  lastcwnd (tcp_probe st1) = 12
  /\ ack_drop_ring_full (stat st1) = ack_drop_ring_full (stat Ex.two_flows) + 1
  /\ jtcp_rcv_established c sk2 1000 (Ex.msec 60) st1 = st1.
Proof.
  cbn zeta.
  destruct (C10_lastcwnd_is_global (Ex.cfg 2 0)
              (sk_tuple (Ex.conn 1 5100 12)) (Ex.conn 1 5100 12) (Ex.msec 50)
              5100 1000 20 100 Ex.two_flows
              (Ex.conn 2 900 12) 1000 (Ex.msec 60) eq_refl eq_refl)
    as (Hc & Hd & _ & Hs).
  split; [exact Hc |]. split; [| exact Hs].
  rewrite Hd. vm_compute. reflexivity.
Defined.

(** ** C8: the byte counter along a run *)

(** The entry of a tracked identity after an observation of any socket:
    it is still there, either untouched or stamped and updated. *)
Lemma rcv_entry_after cfg sk len now st tu f :
  flows st !! tu = Some f ->
  exists f',
    flows (jtcp_rcv_established cfg sk len now st) !! tu = Some f'
    /\ (f' = f \/ f' = account_bytes sk (set_tstamp now f)).
Proof.
  intros Hin.
  destruct (port_filter cfg (sk_tuple sk) && cwnd_gate cfg sk st) eqn:Hg.
  2: { rewrite rcv_filtered by assumption. eauto. }
  apply andb_prop in Hg as [Hp Hw].
  destruct (tcp_hash_lock st) eqn:Hl.
  { rewrite rcv_lock_held by assumption. eauto. }
  destruct (tcp_flow_find (sk_tuple sk) st) as [g |] eqn:Hf.
  - destruct (interval_gate cfg now g) eqn:Hi.
    + rewrite (rcv_tracked_written cfg sk len now st g) by assumption.
      rewrite write_flow_flows. cbn [store_flow set_flows flows].
      destruct (decide (sk_tuple sk = tu)) as [<- | Hne].
      * unfold tcp_flow_find in Hf. rewrite Hin in Hf.
        injection Hf as <-. rewrite lookup_insert_eq. eauto.
      * rewrite lookup_insert_ne by assumption. eauto.
    + rewrite (rcv_tracked_gated cfg sk len now st g) by assumption. eauto.
  - destruct (maxflow_reached cfg st) eqn:Hm.
    + rewrite rcv_rejected by assumption. eauto.
    + rewrite rcv_created by assumption.
      rewrite write_flow_flows. cbn [set_flow_count set_flows flows].
      rewrite lookup_insert_ne; [eauto |].
      intros <-. unfold tcp_flow_find in Hf. congruence.
Qed.

Lemma set_tstamp_bytes t f :
  cumulative_bytes (set_tstamp t f) = cumulative_bytes f.
Proof. reflexivity. Qed.

(** Along a run of observations each step adds less than [2 ^ 32]. *)
Lemma observe_all_bytes cfg tu l : forall st f,
  flows st !! tu = Some f ->
  0 <= cumulative_bytes f ->
  cumulative_bytes f + Z.of_nat (length l) * 2 ^ 32 <= 2 ^ 64 ->
  exists f',
    flows (observe_all cfg l st) !! tu = Some f'
    /\ cumulative_bytes f <= cumulative_bytes f'
    /\ cumulative_bytes f' <= cumulative_bytes f + Z.of_nat (length l) * 2 ^ 32.
Proof.
  induction l as [| e l IH]; intros st f Hin H0 Hb.
  - exists f. cbn. repeat split; [assumption | lia | lia].
  - cbn [observe_all]. cbn [length] in Hb |- *.
    destruct (rcv_entry_after cfg (o_sk e) (o_len e) (o_now e) st tu f Hin)
      as (f1 & Hin1 & Hcase).
    assert (Hstep : cumulative_bytes f <= cumulative_bytes f1
                    /\ cumulative_bytes f1 < cumulative_bytes f + 2 ^ 32).
    { destruct Hcase as [-> | ->]; [lia |].
      pose proof (account_bytes_no_wrap (o_sk e) (set_tstamp (o_now e) f)) as H.
      rewrite set_tstamp_bytes in H. apply H; lia. }
    destruct (IH _ f1 Hin1 ltac:(lia) ltac:(lia)) as (f' & Hin' & Hlo & Hhi).
    exists f'. split; [exact Hin' |]. lia.
Qed.

(** C8, amended. The byte counter of a tracked flow does not decrease
    along any run of observation events, nor in the update of a close
    event whose result goes into the terminal record, as long as the
    64-bit counter cannot wrap: each event adds less than [2 ^ 32], so a
    run of [n] events from a count [b] with [b + n * 2 ^ 32 <= 2 ^ 64]
    is monotone. *)
Theorem C8_monotone_until_u64_wrap cfg tu f st l :
  flows st !! tu = Some f ->
  0 <= cumulative_bytes f ->
  cumulative_bytes f + Z.of_nat (length l) * 2 ^ 32 <= 2 ^ 64 ->
  (exists f',
     flows (observe_all cfg l st) !! tu = Some f'
     /\ cumulative_bytes f <= cumulative_bytes f')
  /\ (forall sk now,
        cumulative_bytes f + 2 ^ 32 <= 2 ^ 64 ->
        sk_tuple sk = tu ->
        port_filter cfg tu = true ->
        tcp_hash_lock st = false ->
        let f' := account_bytes sk f in
        cumulative_bytes f <= cumulative_bytes f'
        /\ jtcp_done cfg sk now st
           = Done (tcp_hash_flow_free
                     (unlink_flow tu
                        (snd (write_flow cfg tu sk now (cumulative_bytes f')
                                UINT16_MAX (cur_ssthresh sk) (first_seq_num f')
                                (stat_inc_reset_flows (store_flow tu f' st))))))).
Proof.
  intros Hin H0 Hb. split.
  - destruct (observe_all_bytes cfg tu l st f Hin H0 Hb) as (f' & H1 & H2 & _).
    eauto.
  - intros sk now Hone <- Hp Hl. cbn zeta. split.
    + apply account_bytes_no_wrap; assumption.
    + apply (done_tracked cfg sk now st f); assumption.
Qed.

Lemma C8_monotone_until_u64_wrap_witness :
  let c := Ex.cfg 4 0 in
  let st := jtcp_rcv_established c (Ex.conn 1 100 10) 1000 0 (Ex.boot 4) in
  let l := [Ex.obs (Ex.conn 1 5100 11) (Ex.msec 50);
            Ex.obs (Ex.conn 1 5100 11) (Ex.msec 70);
            Ex.obs (Ex.conn 1 40 12) (Ex.msec 90)] in
  exists f',
    flows (observe_all c l st) !! sk_tuple (Ex.conn 1 100 10) = Some f'
    /\ 100 <= cumulative_bytes f'.
Proof.
  cbn zeta.
  destruct (C8_monotone_until_u64_wrap (Ex.cfg 4 0)
              (sk_tuple (Ex.conn 1 100 10)) (fresh_flow (Ex.conn 1 100 10) 0)
              (jtcp_rcv_established (Ex.cfg 4 0) (Ex.conn 1 100 10) 1000 0
                 (Ex.boot 4))
              [Ex.obs (Ex.conn 1 5100 11) (Ex.msec 50);
               Ex.obs (Ex.conn 1 5100 11) (Ex.msec 70);
               Ex.obs (Ex.conn 1 40 12) (Ex.msec 90)])
    as (H & _).
  - vm_compute. reflexivity.
  - vm_compute. discriminate.
  - vm_compute. discriminate.
  - exact H.
Defined.

(** *** The counter at the end of [u64] *)

(** With every event captured and no minimum interval, an observation
    of a tracked flow is always processed. *)
Lemma rcv_full_capture_step C sk len now st f :
  tcp_hash_lock st = false ->
  flows st !! sk_tuple sk = Some f ->
  let st' := jtcp_rcv_established (Ex.cfg_full C) sk len now st in
  tcp_hash_lock st' = false
  /\ flows st' !! sk_tuple sk = Some (account_bytes sk (set_tstamp now f)).
Proof.
  intros Hl Hf. cbn zeta.
  rewrite (rcv_tracked_written (Ex.cfg_full C) sk len now st f);
    [| reflexivity | reflexivity | assumption | assumption
     | apply interval_gate_zero; reflexivity].
  rewrite write_flow_lock, write_flow_flows. cbn [store_flow set_flows
    tcp_hash_lock flows].
  split; [assumption | apply lookup_insert_eq].
Qed.

Lemma u64_idem z : u64 (u64 z) = u64 z.
Proof. unfold u64. apply Z.mod_mod. lia. Qed.

Lemma u64_add_l a b : u64 (u64 a + b) = u64 (a + b).
Proof. unfold u64. apply Zplus_mod_idemp_l. Qed.

(** Each round of [Ex.wrap_run] adds [UINT32_MAX] to the counter. *)
Lemma wrap_run_bytes C n : forall t st f,
  tcp_hash_lock st = false ->
  flows st !! sk_tuple (Ex.conn 1 0 10) = Some f ->
  last_seq_num f = 0 ->
  in_u64 (cumulative_bytes f) ->
  let st' := observe_all (Ex.cfg_full C) (Ex.wrap_run n t) st in
  tcp_hash_lock st' = false
  /\ exists f',
       flows st' !! sk_tuple (Ex.conn 1 0 10) = Some f'
       /\ last_seq_num f' = 0
       /\ cumulative_bytes f'
          = u64 (cumulative_bytes f + Z.of_nat n * UINT32_MAX).
Proof.
  induction n as [| n IH]; intros t st f Hl Hf Hlast Hin; cbn zeta.
  - cbn [Ex.wrap_run observe_all]. split; [assumption |].
    exists f. repeat split; try assumption.
    rewrite Z.mul_0_l, Z.add_0_r. symmetry. apply u64_small. exact Hin.
  - cbn [Ex.wrap_run observe_all Ex.obs o_sk o_len o_now].
    set (skA := Ex.conn 1 UINT32_MAX 10). set (skB := Ex.conn 1 0 10).
    destruct (rcv_full_capture_step C skA 1000 t st f Hl Hf) as (Hl1 & Hf1).
    set (st1 := jtcp_rcv_established (Ex.cfg_full C) skA 1000 t st) in *.
    set (f1 := account_bytes skA (set_tstamp t f)) in *.
    destruct (rcv_full_capture_step C skB 1000 (t + Ex.msec 1) st1 f1 Hl1 Hf1)
      as (Hl2 & Hf2).
    set (st2 := jtcp_rcv_established (Ex.cfg_full C) skB 1000
                  (t + Ex.msec 1) st1) in *.
    set (f2 := account_bytes skB (set_tstamp (t + Ex.msec 1) f1)) in *.
    assert (Hlast2 : last_seq_num f2 = 0) by reflexivity.
    assert (Hb1 : cumulative_bytes f1 = u64 (cumulative_bytes f + UINT32_MAX)).
    { unfold f1. rewrite account_bytes_ahead.
      - cbn. rewrite Hlast, Z.sub_0_r. reflexivity.
      - cbn. unfold in_u32, UINT32_MAX. lia.
      - cbn. rewrite Hlast. unfold in_u32. lia.
      - cbn. rewrite Hlast. unfold UINT32_MAX. lia. }
    assert (Hb2 : cumulative_bytes f2 = u64 (cumulative_bytes f1)).
    { unfold f2. rewrite account_bytes_behind.
      - cbn. rewrite Z.sub_diag, !Z.add_0_r. reflexivity.
      - cbn. unfold in_u32. lia.
      - cbn. unfold in_u32, UINT32_MAX. lia.
      - cbn. unfold UINT32_MAX. lia. }
    assert (Hin2 : in_u64 (cumulative_bytes f2))
      by (rewrite Hb2; apply u64_bound).
    destruct (IH (t + Ex.msec 2) st2 f2 Hl2 Hf2 Hlast2 Hin2)
      as (Hl3 & f3 & Hf3 & Hlast3 & Hb3).
    split; [exact Hl3 |]. exists f3.
    split; [exact Hf3 |]. split; [exact Hlast3 |].
    rewrite Hb3, Hb2, Hb1, u64_idem, u64_add_l. f_equal. lia.
Qed.

(** The run [Ex.long_run] from the start-up state brings the counter of
    its flow to [2 ^ 64 - 1], with the last sequence number at 0. *)
Lemma long_run_reaches_u64_max :
  let st := observe_all (Ex.cfg_full 4) Ex.long_run (Ex.boot 4) in
  tcp_hash_lock st = false
  /\ exists f,
       flows st !! sk_tuple (Ex.conn 1 0 10) = Some f
       /\ last_seq_num f = 0
       /\ cumulative_bytes f = 2 ^ 64 - 1.
Proof.
  unfold Ex.long_run.
  assert (Hn : Z.of_nat (Z.to_nat (2 ^ 32 + 1)) = 2 ^ 32 + 1)
    by (apply Z2Nat.id; lia).
  revert Hn. generalize (Z.to_nat (2 ^ 32 + 1)). intros n Hn.
  cbn zeta. cbn [observe_all Ex.obs o_sk o_len o_now].
  set (st0 := jtcp_rcv_established (Ex.cfg_full 4) (Ex.conn 1 0 10) 1000 0
                (Ex.boot 4)).
  assert (Hl0 : tcp_hash_lock st0 = false) by (vm_compute; reflexivity).
  assert (Hf0 : flows st0 !! sk_tuple (Ex.conn 1 0 10)
                = Some (fresh_flow (Ex.conn 1 0 10) 0))
    by (vm_compute; reflexivity).
  clearbody st0.
  destruct (wrap_run_bytes 4 n (Ex.msec 1) st0
              (fresh_flow (Ex.conn 1 0 10) 0) Hl0 Hf0 eq_refl
              ltac:(vm_compute; split; [discriminate | reflexivity]))
    as (Hl & f & Hf & Hlast & Hb).
  split; [exact Hl |]. exists f.
  split; [exact Hf |]. split; [exact Hlast |].
  rewrite Hb, Hn. reflexivity.
Qed.

(** C8, as stated, fails at the end of the 64-bit range: the counter is
    a [u64] and wraps. The flow of [Ex.long_run], created at start-up
    and observed through rounds that each add [2 ^ 32 - 1], stands at
    [2 ^ 64 - 1]; its next observation, one byte further, takes the
    counter down to 0. *)
Lemma C8_counterexample :
  let c := Ex.cfg_full 4 in
  let sk := Ex.conn 1 1 10 in
  let st := observe_all c Ex.long_run (Ex.boot 4) in
  let st' := jtcp_rcv_established c sk 1000 (Ex.msec (2 ^ 34)) st in
  exists f f',
    flows st !! sk_tuple sk = Some f
    /\ flows st' !! sk_tuple sk = Some f'
    /\ cumulative_bytes f = 2 ^ 64 - 1
    /\ cumulative_bytes f' = 0
    /\ ~ (cumulative_bytes f <= cumulative_bytes f').
Proof.
  cbn zeta. pose proof long_run_reaches_u64_max as H. cbn zeta in H.
  set (st := observe_all (Ex.cfg_full 4) Ex.long_run (Ex.boot 4)) in *.
  clearbody st. destruct H as (Hl & f & Hf & Hlast & Hb).
  destruct (rcv_full_capture_step 4 (Ex.conn 1 1 10) 1000 (Ex.msec (2 ^ 34))
              st f Hl Hf) as (_ & Hf').
  exists f, (account_bytes (Ex.conn 1 1 10) (set_tstamp (Ex.msec (2 ^ 34)) f)).
  assert (Hz : cumulative_bytes
                 (account_bytes (Ex.conn 1 1 10)
                    (set_tstamp (Ex.msec (2 ^ 34)) f)) = 0).
  { rewrite account_bytes_ahead.
    - cbn. rewrite Hb, Hlast. reflexivity.
    - cbn. unfold in_u32. lia.
    - cbn. rewrite Hlast. unfold in_u32. lia.
    - cbn. rewrite Hlast. lia. }
  split; [exact Hf |]. split; [exact Hf' |]. split; [exact Hb |].
  split; [exact Hz |]. rewrite Hz, Hb. lia.
Qed.

(** ** The purge keeps the flow counter exact *)

Section Purge.

Variable cfg : config.

Lemma purge_all_flows_empties st st' :
  counted st -> purge_all_flows st = Done st' ->
  flows st' = ∅ /\ counted st'.
Proof.
  unfold purge_all_flows, counted. intros Hc.
  destruct (tcp_hash_lock st); [discriminate |]. done_eq.
  cbn. split; [reflexivity |]. rewrite map_size_empty. lia.
Qed.

Lemma purge_timer_run_evicts now st st' :
  counted st -> purge_timer_run cfg now st = Done st' ->
  counted st'
  /\ forall tu f,
       flows st' !! tu = Some f ->
       flows st !! tu = Some f
       /\ idle_seconds now (tstamp f) < purgetime cfg.
Proof.
  unfold purge_timer_run, counted. intros Hc.
  destruct (tcp_hash_lock st); [discriminate |]. done_eq.
  cbn [set_flow_count set_flows flows flow_count]. split; [lia |].
  intros tu f Hin. apply map_lookup_filter_Some in Hin as [Hin Hk].
  cbn in Hk. split; [exact Hin | lia].
Qed.

End Purge.

(** * Further properties of [jprobe.c] *)

(** ** Time conversions *)

(** X1. [ns_to_timespec] splits any count of nanoseconds, negative ones
    included, into seconds and a nanosecond part in [0, 10^9) that add
    up to the count again. *)
Theorem X1_ns_to_timespec_normalises nsec :
  let tv := ns_to_timespec nsec in
  0 <= tv_nsec tv < NSEC_PER_SEC
  /\ tv_sec tv * NSEC_PER_SEC + tv_nsec tv = nsec.
Proof.
  cbn zeta. unfold ns_to_timespec, NSEC_PER_SEC.
  destruct (Z.eqb_spec nsec 0) as [-> | Hne]; [cbn; lia |].
  pose proof (Z.quot_rem' nsec 1000000000) as Hqr.
  destruct (Z.ltb_spec (Z.rem nsec 1000000000) 0) as [Hneg | Hpos];
    cbn [tv_sec tv_nsec].
  - destruct (Z.le_gt_cases 0 nsec) as [Hn | Hn].
    + pose proof (Z.rem_bound_pos nsec 1000000000 Hn ltac:(lia)). lia.
    + pose proof (Z.rem_bound_pos (- nsec) 1000000000 ltac:(lia) ltac:(lia))
        as Hb.
      rewrite Z.rem_opp_l' in Hb. lia.
  - destruct (Z.le_gt_cases 0 nsec) as [Hn | Hn].
    + pose proof (Z.rem_bound_pos nsec 1000000000 Hn ltac:(lia)). lia.
    + pose proof (Z.rem_bound_pos (- nsec) 1000000000 ltac:(lia) ltac:(lia))
        as Hb.
      rewrite Z.rem_opp_l' in Hb. lia.
Qed.

Lemma idle_seconds_elapsed now before :
  0 <= before -> before <= now -> now < 2 ^ 63 ->
  idle_seconds now before = (now - before) / NSEC_PER_SEC.
Proof.
  intros H0 H1 H2. unfold idle_seconds, ktime_to_timespec, ktime_sub.
  rewrite s64_small by lia. rewrite ns_to_timespec_nonneg by lia.
  reflexivity.
Qed.

(** X2. With time stamps taken from a monotonic clock, the milliseconds
    that [jtcp_rcv_established] compares with [probetime] are the
    elapsed nanoseconds divided by 10^6, rounded down, and the seconds
    that [purge_timer_run] compares with [purgetime] are the elapsed
    nanoseconds divided by 10^9, rounded down. *)
Theorem X2_elapsed_time now before :
  0 <= before -> before <= now -> now < 2 ^ 63 ->
  milliseconds now before = (now - before) / NSEC_PER_MSEC
  /\ idle_seconds now before = (now - before) / NSEC_PER_SEC.
Proof.
  intros H0 H1 H2.
  split; [apply milliseconds_elapsed | apply idle_seconds_elapsed];
    assumption.
Qed.

Lemma X2_elapsed_time_witness :
  milliseconds 1234567890 1000 = 1234
  /\ idle_seconds 1234567890 1000 = 1.
Proof.
  destruct (X2_elapsed_time 1234567890 1000 ltac:(lia) ltac:(lia) ltac:(lia))
    as (H1 & H2).
  rewrite H1, H2. split; reflexivity.
Defined.

(** ** The ring writer *)

(** X3. [write_flow] keeps the ring well formed and is the producer
    only: the head stays inside the array, the array keeps its size, the
    tail is not moved, and neither the flow table nor the flow counter
    nor the table lock is touched. *)
Theorem X3_write_flow_keeps_ring cfg tu tp ts cb len ss fs st :
  ring_ok cfg (tcp_probe st) ->
  let st' := snd (write_flow cfg tu tp ts cb len ss fs st) in
  ring_ok cfg (tcp_probe st')
  /\ tail (tcp_probe st') = tail (tcp_probe st)
  /\ length (log (tcp_probe st')) = length (log (tcp_probe st))
  /\ flows st' = flows st
  /\ flow_count st' = flow_count st
  /\ tcp_hash_lock st' = tcp_hash_lock st.
Proof.
  intros Hok. cbn zeta.
  destruct (write_flow_effect cfg tu tp ts cb len ss fs st Hok) as (Hok' & _).
  split; [exact Hok' |].
  rewrite write_flow_flows, write_flow_flow_count, write_flow_lock.
  destruct (tcp_probe_avail cfg (tcp_probe st) >? 1) eqn:Hav.
  - rewrite write_flow_room by assumption. cbn. rewrite length_insert.
    repeat split.
  - rewrite write_flow_refused by assumption. cbn. repeat split.
Qed.

Lemma X3_write_flow_keeps_ring_witness :
  let a := Ex.rec 7 in
  let st' := snd (push_call (Ex.cfg 4 0) a (Ex.boot 4)) in
  ring_ok (Ex.cfg 4 0) (tcp_probe st') /\ tail (tcp_probe st') = 0.
Proof.
  cbn zeta.
  assert (Hok : ring_ok (Ex.cfg 4 0) (tcp_probe (Ex.boot 4))).
  { split; [exists 2; split; [lia | reflexivity] |].
    cbn. repeat split; lia. }
  destruct (X3_write_flow_keeps_ring (Ex.cfg 4 0) (p_tuple (Ex.rec 7))
              (p_tp (Ex.rec 7)) (p_tstamp (Ex.rec 7))
              (p_cumulative (Ex.rec 7)) (p_length (Ex.rec 7))
              (p_ssthresh (Ex.rec 7)) (p_first_seq (Ex.rec 7)) (Ex.boot 4) Hok)
    as (H1 & H2 & _).
  split; [exact H1 | exact H2].
Defined.

(** X4. First in, first out without loss: as long as the reserve margin
    is not reached ([used + N <= bufsize - 1]), [N] calls of
    [write_flow] with no reader in between append exactly their [N]
    records to the ring, in the order of the calls, and count no
    drop. *)
Theorem X4_ring_fifo cfg l st :
  ring_ok cfg (tcp_probe st) ->
  tcp_probe_used cfg (tcp_probe st) + Z.of_nat (length l) <= bufsize cfg - 1 ->
  let st' := push_all cfg l st in
  ring_records cfg (tcp_probe st')
  = ring_records cfg (tcp_probe st) ++ map push_record l
  /\ ack_drop_ring_full (stat st') = ack_drop_ring_full (stat st)
  /\ tcp_probe_used cfg (tcp_probe st')
     = tcp_probe_used cfg (tcp_probe st) + Z.of_nat (length l).
Proof.
  intros Hok Hfit. cbn zeta.
  destruct (push_all_stored cfg l st Hok Hfit) as (_ & Hu & Hr & Hs).
  split; [exact Hr |]. split; [rewrite Hs; reflexivity | exact Hu].
Qed.

Lemma X4_ring_fifo_witness :
  let c := Ex.cfg 8 0 in
  let st' := push_all c [Ex.rec 3; Ex.rec 1; Ex.rec 2] (Ex.boot 8) in
  ring_records c (tcp_probe st')
  = map push_record [Ex.rec 3; Ex.rec 1; Ex.rec 2]
  /\ ack_drop_ring_full (stat st') = 0.
Proof.
  cbn zeta.
  assert (Hok : ring_ok (Ex.cfg 8 0) (tcp_probe (Ex.boot 8))).
  { split; [exists 3; split; [lia | reflexivity] |].
    cbn. repeat split; lia. }
  destruct (X4_ring_fifo (Ex.cfg 8 0) [Ex.rec 3; Ex.rec 1; Ex.rec 2]
              (Ex.boot 8) Hok ltac:(vm_compute; discriminate))
    as (H1 & H2 & _).
  split; [exact H1 | exact H2].
Defined.

(** X5. The derived fields of a record, for a socket with 32-bit
    fields. For a socket that is not listening the receive queue depth
    is [rcv_nxt - copied_seq] modulo [2 ^ 32] when that is below
    [2 ^ 31], and 0 otherwise: it is the distance from [copied_seq] up
    to [rcv_nxt] and 0 as soon as [copied_seq] is ahead. The send queue
    depth is [write_seq - snd_una] modulo [2 ^ 32]. For a listening
    socket the two are the accept backlog and its limit. The round trip
    time and its variance are stored divided by 8, rounded down, and
    the retransmission timeout is their [srtt + 4 * rttvar], without
    wrap-around. *)
Theorem X5_record_fields tu tp ts cb len ss fs :
  in_u32 (srtt_us tp) -> in_u32 (rttvar_us tp) ->
  in_u32 (rcv_nxt tp) -> in_u32 (copied_seq tp) ->
  let r := fill_log tu tp ts cb len ss fs in
  let d := (rcv_nxt tp - copied_seq tp) mod 2 ^ 32 in
  l_rqueue r
  = (if sk_listen tp then sk_ack_backlog tp
     else if d <? 2 ^ 31 then d else 0)
  /\ (sk_listen tp = false ->
      (copied_seq tp <= rcv_nxt tp < copied_seq tp + 2 ^ 31 ->
       l_rqueue r = rcv_nxt tp - copied_seq tp)
      /\ (rcv_nxt tp < copied_seq tp <= rcv_nxt tp + 2 ^ 31 ->
          l_rqueue r = 0))
  /\ l_wqueue r
     = (if sk_listen tp then sk_max_ack_backlog tp
        else (write_seq tp - snd_una tp) mod 2 ^ 32)
  /\ l_srtt r = srtt_us tp / 8
  /\ l_rttvar r = rttvar_us tp / 8
  /\ l_rto r = srtt_us tp / 8 + 4 * (rttvar_us tp / 8).
Proof.
  intros Hs Hv Hr Hc. cbn zeta. unfold fill_log; cbn.
  unfold in_u32 in *.
  set (d := (rcv_nxt tp - copied_seq tp) mod 2 ^ 32).
  assert (Hd : 0 <= d < 2 ^ 32) by (apply Z.mod_pos_bound; lia).
  assert (Hq : Z.max (s32 (rcv_nxt tp - copied_seq tp)) 0
               = if d <? 2 ^ 31 then d else 0).
  { unfold s32. fold d. destruct (Z.ltb_spec d (2 ^ 31)); lia. }
  split; [destruct (sk_listen tp); [reflexivity | exact Hq] |].
  split.
  { intros Hl. rewrite Hl, Hq. split.
    - intros Hin. assert (Hdv : d = rcv_nxt tp - copied_seq tp)
        by (apply Z.mod_small; lia).
      destruct (Z.ltb_spec d (2 ^ 31)); lia.
    - intros Hin.
      assert (Hdv : d = rcv_nxt tp - copied_seq tp + 2 ^ 32).
      { unfold d. symmetry.
        apply (Z.mod_unique_pos _ _ (-1)); lia. }
      destruct (Z.ltb_spec d (2 ^ 31)); lia. }
  split; [destruct (sk_listen tp); reflexivity |].
  rewrite !Z.shiftr_div_pow2 by lia. change (2 ^ 3) with 8.
  split; [reflexivity |]. split; [reflexivity |].
  assert (0 <= srtt_us tp / 8 < 2 ^ 29).
  { split; [apply Z.div_pos; lia | apply Z.div_lt_upper_bound; lia]. }
  assert (0 <= rttvar_us tp / 8 < 2 ^ 29).
  { split; [apply Z.div_pos; lia | apply Z.div_lt_upper_bound; lia]. }
  apply u32_small. unfold in_u32. lia.
Qed.

Lemma X5_record_fields_witness :
  let tp := Ex.conn 1 100 10 in
  let r := fill_log (sk_tuple tp) tp 0 100 1000 20 100 in
  l_rqueue r = 0 /\ l_wqueue r = 100 /\ l_rto r = 100 + 4 * 20.
Proof.
  cbn zeta.
  destruct (X5_record_fields (sk_tuple (Ex.conn 1 100 10)) (Ex.conn 1 100 10)
              0 100 1000 20 100
              ltac:(unfold in_u32; cbn; lia) ltac:(unfold in_u32; cbn; lia)
              ltac:(unfold in_u32; cbn; lia) ltac:(unfold in_u32; cbn; lia))
    as (H1 & _ & H3 & _ & _ & H6).
  split; [exact H1 |]. split; [exact H3 | exact H6].
Defined.
(** ** What an observation does to the table and to the counters *)

(** The table after an observation: as before, or with the entry of the
    observed socket created or updated. *)
Lemma rcv_flows_shape cfg sk len now st :
  let st' := jtcp_rcv_established cfg sk len now st in
  flows st' = flows st
  \/ (flows st !! sk_tuple sk = None
      /\ flows st' = <[sk_tuple sk := fresh_flow sk now]> (flows st))
  \/ (exists f,
        flows st !! sk_tuple sk = Some f
        /\ flows st'
           = <[sk_tuple sk := account_bytes sk (set_tstamp now f)]> (flows st)).
Proof.
  cbn zeta.
  destruct (port_filter cfg (sk_tuple sk) && cwnd_gate cfg sk st) eqn:Hg.
  2: { rewrite rcv_filtered by assumption. auto. }
  apply andb_prop in Hg as [Hp Hw].
  destruct (tcp_hash_lock st) eqn:Hl.
  { rewrite rcv_lock_held by assumption. auto. }
  destruct (tcp_flow_find (sk_tuple sk) st) as [g |] eqn:Hf.
  - destruct (interval_gate cfg now g) eqn:Hi.
    + rewrite (rcv_tracked_written cfg sk len now st g) by assumption.
      rewrite write_flow_flows. right. right. exists g. split; [exact Hf |].
      reflexivity.
    + rewrite (rcv_tracked_gated cfg sk len now st g) by assumption. auto.
  - destruct (maxflow_reached cfg st) eqn:Hm.
    + rewrite rcv_rejected by assumption. auto.
    + rewrite rcv_created by assumption. rewrite write_flow_flows.
      right. left. split; [exact Hf | reflexivity].
Qed.

Lemma write_flow_drop_count cfg tu tp ts cb len ss fs st :
  ack_drop_ring_full (stat (snd (write_flow cfg tu tp ts cb len ss fs st)))
  = ack_drop_ring_full (stat st)
    + (if tcp_probe_avail cfg (tcp_probe st) >? 1 then 0 else 1).
Proof.
  unfold write_flow.
  destruct (tcp_probe_avail cfg (tcp_probe st) >? 1); cbn; lia.
Qed.

Lemma rcv_lock cfg sk len now st :
  tcp_hash_lock (jtcp_rcv_established cfg sk len now st) = tcp_hash_lock st.
Proof.
  destruct (port_filter cfg (sk_tuple sk) && cwnd_gate cfg sk st) eqn:Hg.
  2: { rewrite rcv_filtered by assumption. reflexivity. }
  apply andb_prop in Hg as [Hp Hw].
  destruct (tcp_hash_lock st) eqn:Hl.
  { rewrite rcv_lock_held by assumption. exact Hl. }
  destruct (tcp_flow_find (sk_tuple sk) st) as [g |] eqn:Hf.
  - destruct (interval_gate cfg now g) eqn:Hi.
    + rewrite (rcv_tracked_written cfg sk len now st g) by assumption.
      rewrite write_flow_lock. exact Hl.
    + rewrite (rcv_tracked_gated cfg sk len now st g) by assumption. exact Hl.
  - destruct (maxflow_reached cfg st) eqn:Hm.
    + rewrite rcv_rejected by assumption. exact Hl.
    + rewrite rcv_created by assumption. rewrite write_flow_lock. exact Hl.
Qed.

Lemma rcv_ring_ok cfg sk len now st :
  ring_ok cfg (tcp_probe st) ->
  ring_ok cfg (tcp_probe (jtcp_rcv_established cfg sk len now st)).
Proof.
  intros Hok.
  destruct (port_filter cfg (sk_tuple sk) && cwnd_gate cfg sk st) eqn:Hg.
  2: { rewrite rcv_filtered by assumption. exact Hok. }
  apply andb_prop in Hg as [Hp Hw].
  destruct (tcp_hash_lock st) eqn:Hl.
  { rewrite rcv_lock_held by assumption. exact Hok. }
  destruct (tcp_flow_find (sk_tuple sk) st) as [g |] eqn:Hf.
  - destruct (interval_gate cfg now g) eqn:Hi.
    + rewrite (rcv_tracked_written cfg sk len now st g) by assumption.
      apply write_flow_effect. exact Hok.
    + rewrite (rcv_tracked_gated cfg sk len now st g) by assumption.
      exact Hok.
  - destruct (maxflow_reached cfg st) eqn:Hm.
    + rewrite rcv_rejected by assumption. exact Hok.
    + rewrite rcv_created by assumption. apply write_flow_effect. exact Hok.
Qed.

(** X6. The port filter. With [port] set, an event on a socket neither
    of whose ports, in host order, is [port] is ignored by both
    handlers: the state is returned as it was, and the table lock is not
    even tried, so nothing is counted or waited for while the purge
    holds it. *)
Theorem X6_port_filter_ignores cfg sk len now st :
  port cfg <> 0 ->
  ntohs (inet_dport sk) <> port cfg ->
  ntohs (inet_sport sk) <> port cfg ->
  jtcp_rcv_established cfg sk len now st = st
  /\ jtcp_done cfg sk now st = Done st.
Proof.
  intros H0 Hd Hs.
  assert (Hp : port_filter cfg (sk_tuple sk) = false).
  { unfold port_filter, sk_tuple; cbn.
    apply Z.eqb_neq in H0, Hd, Hs. rewrite H0, Hd, Hs. reflexivity. }
  split.
  - apply rcv_filtered. rewrite Hp. reflexivity.
  - apply done_filtered. exact Hp.
Qed.

Lemma X6_port_filter_ignores_witness :
  let c := {| port := 443; full := true; probetime := 0; purgetime := 300;
              maxflows := 0; bufsize := 4 |} in
  let st := Ex.lock (Ex.boot 4) in
  jtcp_rcv_established c (Ex.conn 1 100 10) 1000 0 st = st
  /\ jtcp_done c (Ex.conn 1 100 10) 0 st = Done st.
Proof.
  cbn zeta.
  apply X6_port_filter_ignores; vm_compute; discriminate.
Defined.

(** X7. An observation touches at most the entry of its own socket:
    the entry of every other identity is the same before and after, and
    no entry is ever removed by an observation. *)
Theorem X7_observation_frame cfg sk len now st tu :
  let st' := jtcp_rcv_established cfg sk len now st in
  (tu <> sk_tuple sk -> flows st' !! tu = flows st !! tu)
  /\ (is_Some (flows st !! tu) -> is_Some (flows st' !! tu))
  /\ (size (flows st) <= size (flows st'))%nat.
Proof.
  cbn zeta.
  destruct (rcv_flows_shape cfg sk len now st)
    as [-> | [(Hn & ->) | (f & Hf & ->)]].
  - repeat split; auto.
  - split; [intros Hne; apply lookup_insert_ne; congruence |].
    split.
    + intros Hs. destruct (decide (sk_tuple sk = tu)) as [<- | Hne].
      * rewrite lookup_insert_eq. eauto.
      * rewrite lookup_insert_ne by assumption. exact Hs.
    + rewrite map_size_insert_None by assumption. lia.
  - split; [intros Hne; apply lookup_insert_ne; congruence |].
    split.
    + intros Hs. destruct (decide (sk_tuple sk = tu)) as [<- | Hne].
      * rewrite lookup_insert_eq. eauto.
      * rewrite lookup_insert_ne by assumption. exact Hs.
    + rewrite map_size_insert_Some by (rewrite Hf; eauto). lia.
Qed.

(** X8. An observation counts at most one drop: the three drop
    counters ([ack_drop_purge], [ack_drop_ring_full],
    [conn_maxflow_limit]) never decrease, their sum grows by at most
    one, and [reset_flows] is left alone. *)
Theorem X8_observation_counts_once cfg sk len now st :
  let st' := jtcp_rcv_established cfg sk len now st in
  ack_drop_purge (stat st) <= ack_drop_purge (stat st')
  /\ ack_drop_ring_full (stat st) <= ack_drop_ring_full (stat st')
  /\ conn_maxflow_limit (stat st) <= conn_maxflow_limit (stat st')
  /\ drops st' <= drops st + 1
  /\ reset_flows (stat st') = reset_flows (stat st).
Proof.
  cbn zeta. unfold drops.
  assert (Hwf : forall tu tp ts cb l ss fs s,
             stat s = stat st ->
             let s' := snd (write_flow cfg tu tp ts cb l ss fs s) in
             ack_drop_purge (stat st) <= ack_drop_purge (stat s')
             /\ ack_drop_ring_full (stat st) <= ack_drop_ring_full (stat s')
             /\ conn_maxflow_limit (stat st) <= conn_maxflow_limit (stat s')
             /\ ack_drop_purge (stat s') + ack_drop_ring_full (stat s')
                + conn_maxflow_limit (stat s')
                <= ack_drop_purge (stat st) + ack_drop_ring_full (stat st)
                   + conn_maxflow_limit (stat st) + 1
             /\ reset_flows (stat s') = reset_flows (stat st)).
  { intros tu tp ts cb l ss fs s Hs. cbn zeta.
    pose proof (write_flow_other_stats cfg tu tp ts cb l ss fs s) as Ho.
    cbn zeta in Ho. destruct Ho as (H1 & H2 & H3).
    rewrite H1, H2, H3, write_flow_drop_count, Hs.
    destruct (tcp_probe_avail cfg (tcp_probe s) >? 1); lia. }
  destruct (port_filter cfg (sk_tuple sk) && cwnd_gate cfg sk st) eqn:Hg.
  2: { rewrite rcv_filtered by assumption. lia. }
  apply andb_prop in Hg as [Hp Hw].
  destruct (tcp_hash_lock st) eqn:Hl.
  { rewrite rcv_lock_held by assumption. cbn. lia. }
  destruct (tcp_flow_find (sk_tuple sk) st) as [g |] eqn:Hf.
  - destruct (interval_gate cfg now g) eqn:Hi.
    + rewrite (rcv_tracked_written cfg sk len now st g) by assumption.
      apply Hwf. reflexivity.
    + rewrite (rcv_tracked_gated cfg sk len now st g) by assumption. lia.
  - destruct (maxflow_reached cfg st) eqn:Hm.
    + rewrite rcv_rejected by assumption. cbn. lia.
    + rewrite rcv_created by assumption. apply Hwf. reflexivity.
Qed.

Lemma X7_observation_frame_witness :
  let c := Ex.cfg 2 0 in
  let st' := jtcp_rcv_established c (Ex.conn 1 5100 12) 1000 (Ex.msec 50)
               Ex.two_flows in
  flows st' !! sk_tuple (Ex.conn 2 500 11)
  = flows Ex.two_flows !! sk_tuple (Ex.conn 2 500 11).
Proof.
  cbn zeta.
  destruct (X7_observation_frame (Ex.cfg 2 0) (Ex.conn 1 5100 12) 1000
              (Ex.msec 50) Ex.two_flows (sk_tuple (Ex.conn 2 500 11)))
    as (H & _).
  apply H. vm_compute. discriminate.
Defined.

(** ** What a close event does to the table *)

(** The table after a close event that returned. *)
Lemma done_flows_shape cfg sk now st st' :
  jtcp_done cfg sk now st = Done st' ->
  (st' = st
   /\ (port_filter cfg (sk_tuple sk) = false
       \/ flows st !! sk_tuple sk = None))
  \/ (port_filter cfg (sk_tuple sk) = true
      /\ is_Some (flows st !! sk_tuple sk)
      /\ flows st' = delete (sk_tuple sk) (flows st)
      /\ flow_count st' = flow_count st - 1
      /\ tcp_hash_lock st' = false).
Proof.
  destruct (port_filter cfg (sk_tuple sk)) eqn:Hp.
  2: { rewrite done_filtered by assumption. done_eq. auto. }
  destruct (tcp_hash_lock st) eqn:Hl.
  { rewrite done_lock_held by assumption. discriminate. }
  destruct (tcp_flow_find (sk_tuple sk) st) as [f |] eqn:Hf.
  - rewrite (done_tracked cfg sk now st f) by assumption. done_eq.
    right. split; [reflexivity |]. unfold tcp_flow_find in Hf.
    split; [rewrite Hf; eauto |].
    cbn [tcp_hash_flow_free unlink_flow set_flow_count set_flows flows
           flow_count tcp_hash_lock].
    rewrite write_flow_flows, write_flow_flow_count, write_flow_lock.
    cbn [stat_inc_reset_flows store_flow set_stat set_flows flows flow_count
           tcp_hash_lock].
    rewrite delete_insert_eq. repeat split. exact Hl.
  - rewrite done_unknown by assumption. done_eq. auto.
Qed.

(** X9. A close event removes at most the entry of its own socket: the
    entries of all other identities stay as they were, and after a
    close that passed the port filter the identity is no longer in the
    table, so that closing the same socket a second time changes
    nothing. *)
Theorem X9_close_frame cfg sk now st st' :
  jtcp_done cfg sk now st = Done st' ->
  (forall tu, tu <> sk_tuple sk -> flows st' !! tu = flows st !! tu)
  /\ (port_filter cfg (sk_tuple sk) = true ->
      flows st' !! sk_tuple sk = None)
  /\ (forall now2, jtcp_done cfg sk now2 st' = Done st').
Proof.
  intros Hd.
  destruct (done_flows_shape cfg sk now st st' Hd)
    as [(-> & Hcase) | (Hp & Hs & Hfl & Hc & Hl)].
  - split; [reflexivity |].
    assert (Hl : port_filter cfg (sk_tuple sk) = true ->
                 tcp_hash_lock st = false).
    { intros Hp. destruct (tcp_hash_lock st) eqn:Hl; [| reflexivity].
      rewrite done_lock_held in Hd by assumption. discriminate. }
    split.
    + intros Hp. destruct Hcase as [Hf | Hn]; [congruence | exact Hn].
    + intros now2. destruct Hcase as [Hf | Hn].
      * apply done_filtered. exact Hf.
      * destruct (port_filter cfg (sk_tuple sk)) eqn:Hp.
        -- apply done_unknown; [auto | exact Hn].
        -- apply done_filtered. exact Hp.
  - split; [| split].
    + intros tu Hne. rewrite Hfl. apply lookup_delete_ne. congruence.
    + intros _. rewrite Hfl. apply lookup_delete_eq.
    + intros now2. apply done_unknown; [exact Hl |].
      unfold tcp_flow_find. rewrite Hfl. apply lookup_delete_eq.
Qed.

Lemma X9_close_frame_witness :
  let c := Ex.cfg 2 0 in
  exists st',
    jtcp_done c (Ex.conn 1 5100 12) (Ex.msec 50) Ex.two_flows = Done st'
    /\ flows st' !! sk_tuple (Ex.conn 1 5100 12) = None
    /\ jtcp_done c (Ex.conn 1 5100 12) (Ex.msec 60) st' = Done st'.
Proof.
  cbn zeta. eexists. split; [reflexivity |].
  destruct (X9_close_frame (Ex.cfg 2 0) (Ex.conn 1 5100 12) (Ex.msec 50)
              Ex.two_flows _ eq_refl) as (_ & H2 & H3).
  split; [apply H2; reflexivity | apply H3].
Defined.

(** ** Invariants along a run *)

Lemma keyed_rcv cfg sk len now st :
  keyed st -> keyed (jtcp_rcv_established cfg sk len now st).
Proof.
  unfold keyed. intros Hk tu f.
  destruct (rcv_flows_shape cfg sk len now st)
    as [-> | [(Hn & ->) | (g & Hg & ->)]]; [apply Hk | |].
  - destruct (decide (sk_tuple sk = tu)) as [<- | Hne].
    + rewrite lookup_insert_eq. intros [= <-]. reflexivity.
    + rewrite lookup_insert_ne by assumption. apply Hk.
  - destruct (decide (sk_tuple sk = tu)) as [<- | Hne].
    + rewrite lookup_insert_eq. intros [= <-]. cbn. apply Hk. exact Hg.
    + rewrite lookup_insert_ne by assumption. apply Hk.
Qed.

Lemma state_ok_step cfg e st :
  state_ok cfg st ->
  exists st', step cfg e st = Done st' /\ state_ok cfg st'.
Proof.
  intros (Hl & Hc & Hk & Hr). destruct e as [sk len now | sk now | now].
  - eexists. split; [reflexivity |]. split; [| split; [| split]].
    + rewrite rcv_lock. exact Hl.
    + apply counted_rcv. exact Hc.
    + apply keyed_rcv. exact Hk.
    + apply rcv_ring_ok. exact Hr.
  - cbn [step].
    destruct (jtcp_done cfg sk now st) as [st' |] eqn:Hd.
    2: { exfalso. unfold jtcp_done in Hd. rewrite Hl in Hd.
         destruct (port_filter cfg (sk_tuple sk)); [| discriminate].
         destruct (tcp_flow_find (sk_tuple sk) st); discriminate. }
    exists st'. split; [reflexivity |].
    pose proof (counted_done cfg sk now st st' Hc Hd) as Hc'.
    destruct (done_flows_shape cfg sk now st st' Hd)
      as [(-> & _) | (Hp & Hs & Hfl & Hfc & Hl')].
    { exact (conj Hl (conj Hc (conj Hk Hr))). }
    split; [exact Hl' |]. split; [exact Hc' |]. split.
    + intros tu f. rewrite Hfl. intros Hin.
      apply lookup_delete_Some in Hin as [_ Hin]. apply Hk. exact Hin.
    + destruct Hs as [f Hf].
      rewrite (done_tracked cfg sk now st f) in Hd by assumption.
      revert Hd. done_eq.
      cbn [tcp_hash_flow_free unlink_flow set_flow_count set_flows tcp_probe].
      apply write_flow_effect. exact Hr.
  - cbn [step]. unfold purge_timer_run. rewrite Hl.
    eexists. split; [reflexivity |].
    split; [exact Hl |]. split; [| split; [| exact Hr]].
    + unfold counted in *.
      cbn [set_flow_count set_flows flows flow_count]. lia.
    + intros tu f. cbn [set_flow_count set_flows flows]. intros Hin.
      apply map_lookup_filter_Some in Hin as [Hin _]. apply Hk. exact Hin.
Qed.

Lemma run_state_ok cfg l : forall st,
  state_ok cfg st ->
  exists st', run cfg l st = Done st' /\ state_ok cfg st'.
Proof.
  induction l as [| e l IH]; intros st Hok.
  - exists st. split; [reflexivity | exact Hok].
  - destruct (state_ok_step cfg e st Hok) as (st1 & Hs & Hok1).
    destruct (IH st1 Hok1) as (st' & Hr & Hok').
    exists st'. split; [| exact Hok']. cbn [run]. rewrite Hs. exact Hr.
Qed.

(** X10. From a state in which the table lock is free, the flow counter
    agrees with the table, every entry is filed under its own 4-tuple
    and the ring is well formed, any sequence of observations, close
    events and purge timer runs goes through without any call waiting
    for the lock, and ends in a state with the same four properties. *)
Theorem X10_run_keeps_state_ok cfg l st :
  state_ok cfg st ->
  exists st', run cfg l st = Done st' /\ state_ok cfg st'.
Proof. apply run_state_ok. Qed.

(** The state at module load satisfies the four properties when the
    ring size is a power of two. *)
Lemma initial_state_ok cfg k :
  0 <= k -> bufsize cfg = 2 ^ k ->
  state_ok cfg (initial_state (replicate (Z.to_nat (bufsize cfg)) zero_log)).
Proof.
  intros Hk HC.
  assert (0 < bufsize cfg) by (rewrite HC; apply Z.pow_pos_nonneg; lia).
  split; [reflexivity |]. split; [reflexivity |]. split.
  - intros tu f. cbn. rewrite lookup_empty. discriminate.
  - split; [exists k; auto |]. cbn. rewrite length_replicate.
    repeat split; lia.
Qed.

Lemma X10_run_keeps_state_ok_witness :
  let c := Ex.cfg 4 0 in
  let l := [Observed (Ex.conn 1 100 10) 1000 0;
            Observed (Ex.conn 2 500 11) 1000 (Ex.msec 1);
            PurgeTimer (Ex.msec 2);
            Closed (Ex.conn 1 5100 12) (Ex.msec 50)] in
  exists st', run c l (Ex.boot 4) = Done st' /\ state_ok c st'.
Proof.
  cbn zeta. apply X10_run_keeps_state_ok.
  apply (initial_state_ok (Ex.cfg 4 0) 2); [lia | reflexivity].
Defined.

(** ** Life of an entry *)

(** X11. A flow that was closed leaves nothing behind: when the same
    identity is observed again (the window gate open and admission not
    refused), the entry created is the one a never seen identity would
    get, whatever the closed entry had accumulated. *)
Theorem X11_reopened_flow_is_fresh cfg sk now st f sk2 len2 now2 :
  port_filter cfg (sk_tuple sk) = true ->
  tcp_hash_lock st = false ->
  tcp_flow_find (sk_tuple sk) st = Some f ->
  sk_tuple sk2 = sk_tuple sk ->
  full cfg = true \/ snd_cwnd sk2 <> snd_cwnd sk ->
  maxflows cfg = 0 \/ flow_count st - 1 < maxflows cfg ->
  exists st1,
    jtcp_done cfg sk now st = Done st1
    /\ tcp_flow_find (sk_tuple sk) st1 = None
    /\ tcp_flow_find (sk_tuple sk)
         (jtcp_rcv_established cfg sk2 len2 now2 st1)
       = Some (fresh_flow sk2 now2).
Proof.
  intros Hp Hl Hf Htu Hgate Hmax.
  rewrite (done_tracked cfg sk now st f) by assumption. cbn zeta.
  eexists. split; [reflexivity |].
  set (st1 := tcp_hash_flow_free _).
  assert (Hfl : flows st1 = delete (sk_tuple sk) (flows st)).
  { unfold st1. cbn [tcp_hash_flow_free unlink_flow set_flow_count set_flows
                       flows].
    rewrite write_flow_flows. cbn. apply delete_insert_eq. }
  assert (Hfc : flow_count st1 = flow_count st - 1).
  { unfold st1. cbn [tcp_hash_flow_free unlink_flow set_flow_count set_flows
                       flow_count].
    rewrite write_flow_flow_count. reflexivity. }
  assert (Hl1 : tcp_hash_lock st1 = false).
  { unfold st1. cbn [tcp_hash_flow_free unlink_flow set_flow_count set_flows
                       tcp_hash_lock].
    rewrite write_flow_lock. exact Hl. }
  assert (Hcw : lastcwnd (tcp_probe st1) = snd_cwnd sk).
  { unfold st1. cbn [tcp_hash_flow_free unlink_flow set_flow_count set_flows
                       tcp_probe].
    apply write_flow_lastcwnd. }
  assert (Hn : tcp_flow_find (sk_tuple sk) st1 = None).
  { unfold tcp_flow_find. rewrite Hfl. apply lookup_delete_eq. }
  split; [exact Hn |]. clearbody st1.
  rewrite <- Htu in *.
  rewrite rcv_created.
  - unfold tcp_flow_find. rewrite write_flow_flows. cbn.
    apply lookup_insert_eq.
  - exact Hp.
  - unfold cwnd_gate. rewrite Hcw.
    destruct Hgate as [-> | Hne]; [reflexivity |].
    apply Z.eqb_neq in Hne. rewrite Hne. apply orb_true_r.
  - exact Hl1.
  - exact Hn.
  - unfold maxflow_reached. rewrite Hfc.
    destruct Hmax as [-> | Hlt]; [reflexivity |].
    apply andb_false_iff. right. rewrite Z.geb_leb. apply Z.leb_gt. exact Hlt.
Qed.

Lemma X11_reopened_flow_is_fresh_witness :
  let c := Ex.cfg 4 0 in
  let st := jtcp_rcv_established c (Ex.conn 1 100 10) 1000 0 (Ex.boot 4) in
  exists st1,
    jtcp_done c (Ex.conn 1 5100 12) (Ex.msec 50) st = Done st1
    /\ tcp_flow_find (sk_tuple (Ex.conn 1 5100 12)) st1 = None
    /\ tcp_flow_find (sk_tuple (Ex.conn 1 5100 12))
         (jtcp_rcv_established c (Ex.conn 1 9000 13) 1000 (Ex.msec 60) st1)
       = Some (fresh_flow (Ex.conn 1 9000 13) (Ex.msec 60)).
Proof.
  cbn zeta.
  apply (X11_reopened_flow_is_fresh (Ex.cfg 4 0) (Ex.conn 1 5100 12)
           (Ex.msec 50) _ (fresh_flow (Ex.conn 1 100 10) 0)).
  - reflexivity.
  - vm_compute. reflexivity.
  - vm_compute. reflexivity.
  - reflexivity.
  - right. vm_compute. discriminate.
  - left. reflexivity.
Defined.

(** X12. The identifier of a flow is stable: along any run of
    observations of any sockets, the entry of an identity that is in the
    table stays in the table with the [first_seq_num] and the 4-tuple it
    had. *)
Theorem X12_first_seq_num_stable cfg tu l : forall st f,
  flows st !! tu = Some f ->
  exists f',
    flows (observe_all cfg l st) !! tu = Some f'
    /\ first_seq_num f' = first_seq_num f
    /\ tuple f' = tuple f.
Proof.
  induction l as [| e l IH]; intros st f Hin.
  - exists f. cbn. auto.
  - cbn [observe_all].
    destruct (rcv_entry_after cfg (o_sk e) (o_len e) (o_now e) st tu f Hin)
      as (f1 & Hin1 & Hcase).
    destruct (IH _ f1 Hin1) as (f' & Hin' & Hfs & Htu).
    exists f'. split; [exact Hin' |].
    destruct Hcase as [-> | ->]; [auto |].
    rewrite Hfs, Htu. split; reflexivity.
Qed.

Lemma X12_first_seq_num_stable_witness :
  let c := Ex.cfg 4 0 in
  let st := jtcp_rcv_established c (Ex.conn 1 100 10) 1000 0 (Ex.boot 4) in
  let l := [Ex.obs (Ex.conn 1 5100 11) (Ex.msec 50);
            Ex.obs (Ex.conn 2 7 12) (Ex.msec 60);
            Ex.obs (Ex.conn 1 9100 13) (Ex.msec 90)] in
  exists f',
    flows (observe_all c l st) !! sk_tuple (Ex.conn 1 100 10) = Some f'
    /\ first_seq_num f' = 100.
Proof.
  cbn zeta.
  destruct (X12_first_seq_num_stable (Ex.cfg 4 0)
              (sk_tuple (Ex.conn 1 100 10))
              [Ex.obs (Ex.conn 1 5100 11) (Ex.msec 50);
               Ex.obs (Ex.conn 2 7 12) (Ex.msec 60);
               Ex.obs (Ex.conn 1 9100 13) (Ex.msec 90)]
              (jtcp_rcv_established (Ex.cfg 4 0) (Ex.conn 1 100 10) 1000 0
                 (Ex.boot 4))
              (fresh_flow (Ex.conn 1 100 10) 0))
    as (f' & H1 & H2 & _).
  - vm_compute. reflexivity.
  - exists f'. split; [exact H1 | exact H2].
Defined.

(** X13. The byte update may be put off. While the sequence number
    moves forward without wrapping and the 64-bit counter has room, two
    updates in a row amount to the second one alone: the counter ends
    at the old count plus the distance from the stored sequence number
    to the last observed one. An observation that the interval gate
    kept from being written therefore loses no bytes. *)
Theorem X13_account_bytes_telescopes sk1 sk2 f :
  in_u32 (last_seq_num f) -> in_u32 (snd_nxt sk1) -> in_u32 (snd_nxt sk2) ->
  last_seq_num f <= snd_nxt sk1 -> snd_nxt sk1 <= snd_nxt sk2 ->
  0 <= cumulative_bytes f -> cumulative_bytes f + 2 ^ 32 <= 2 ^ 64 ->
  let f2 := account_bytes sk2 (account_bytes sk1 f) in
  cumulative_bytes f2 = cumulative_bytes (account_bytes sk2 f)
  /\ cumulative_bytes f2
     = cumulative_bytes f + (snd_nxt sk2 - last_seq_num f)
  /\ last_seq_num f2 = snd_nxt sk2.
Proof.
  intros Hl H1 H2 Ha Hb H0 Hroom. cbn zeta. unfold in_u32 in *.
  assert (Hstep : forall sk g,
             0 <= last_seq_num g -> last_seq_num g <= snd_nxt sk ->
             snd_nxt sk < 2 ^ 32 ->
             0 <= cumulative_bytes g ->
             cumulative_bytes g + (snd_nxt sk - last_seq_num g) < 2 ^ 64 ->
             cumulative_bytes (account_bytes sk g)
             = cumulative_bytes g + (snd_nxt sk - last_seq_num g)).
  { intros sk g Hg0 Hg1 Hg2 Hg3 Hg4.
    destruct (Z.eq_dec (snd_nxt sk) (last_seq_num g)) as [He | Hne].
    - rewrite account_bytes_same by assumption. lia.
    - rewrite account_bytes_ahead by (unfold in_u32; lia).
      apply u64_small. unfold in_u64. lia. }
  assert (E1 : cumulative_bytes (account_bytes sk1 f)
               = cumulative_bytes f + (snd_nxt sk1 - last_seq_num f))
    by (apply Hstep; lia).
  assert (E2 : cumulative_bytes (account_bytes sk2 (account_bytes sk1 f))
               = cumulative_bytes f + (snd_nxt sk2 - last_seq_num f)).
  { rewrite Hstep; rewrite ?account_bytes_last_seq_num; lia. }
  split; [| split; [exact E2 | reflexivity]].
  rewrite E2. symmetry. apply Hstep; lia.
Qed.

Lemma X13_account_bytes_telescopes_witness :
  let f := fresh_flow (Ex.conn 1 100 10) 0 in
  cumulative_bytes
    (account_bytes (Ex.conn 1 9100 12) (account_bytes (Ex.conn 1 5100 11) f))
  = 100 + (9100 - 100).
Proof.
  cbn zeta.
  destruct (X13_account_bytes_telescopes (Ex.conn 1 5100 11)
              (Ex.conn 1 9100 12) (fresh_flow (Ex.conn 1 100 10) 0))
    as (_ & H & _); try (vm_compute; split; [discriminate | reflexivity]);
    try (vm_compute; discriminate).
  exact H.
Defined.

(** ** The purge timer *)

(** X14. A run of the purge timer, once it has the table lock, keeps
    exactly the entries whose time stamp is less than [purgetime]
    seconds old, unchanged, and removes the others; the ring and the
    counters are not touched and the flow counter follows the table.
    With time stamps from a monotonic clock, an entry last written
    [purgetime * 10^9] nanoseconds ago or earlier is gone afterwards.
    While the lock is held elsewhere the timer waits for it. *)
Theorem X14_purge_evicts_idle cfg now st :
  if tcp_hash_lock st then purge_timer_run cfg now st = Spin
  else
    exists st',
      purge_timer_run cfg now st = Done st'
      /\ (forall tu f,
            flows st' !! tu = Some f
            <-> flows st !! tu = Some f
                /\ idle_seconds now (tstamp f) < purgetime cfg)
      /\ (forall tu f,
            flows st !! tu = Some f ->
            0 <= tstamp f -> tstamp f <= now -> now < 2 ^ 63 ->
            purgetime cfg * NSEC_PER_SEC <= now - tstamp f ->
            flows st' !! tu = None)
      /\ tcp_probe st' = tcp_probe st
      /\ stat st' = stat st
      /\ (counted st -> counted st').
Proof.
  unfold purge_timer_run. destruct (tcp_hash_lock st); [reflexivity |].
  eexists. split; [reflexivity |].
  cbn [set_flow_count set_flows flows flow_count tcp_probe stat].
  assert (Hiff : forall tu f,
             filter (fun kv : tcp_tuple * tcp_hash_flow =>
                       ~ purgetime cfg <= idle_seconds now (tstamp kv.2))
               (flows st) !! tu = Some f
             <-> flows st !! tu = Some f
                 /\ idle_seconds now (tstamp f) < purgetime cfg).
  { intros tu f. rewrite map_lookup_filter_Some. cbn. split.
    - intros [H1 H2]. split; [exact H1 | lia].
    - intros [H1 H2]. split; [exact H1 | lia]. }
  split; [exact Hiff |]. split; [| split; [reflexivity |
                                  split; [reflexivity |]]].
  - intros tu f Hin H0 H1 H2 Hidle.
    destruct (filter _ (flows st) !! tu) as [g |] eqn:Hg; [| reflexivity].
    exfalso. apply Hiff in Hg as [Hg Hlt]. rewrite Hin in Hg.
    injection Hg as <-.
    rewrite (idle_seconds_elapsed now (tstamp f) H0 H1 H2) in Hlt. unfold NSEC_PER_SEC in *.
    assert (purgetime cfg <= (now - tstamp f) / 1000000000)
      by (apply Z.div_le_lower_bound; lia).
    lia.
  - unfold counted. cbn [set_flow_count set_flows flows flow_count]. lia.
Qed.

Lemma X14_purge_evicts_idle_witness :
  let c := Ex.cfg 2 0 in
  exists st',
    purge_timer_run c (Ex.msec 300000) Ex.two_flows = Done st'
    /\ flows st' !! sk_tuple (Ex.conn 1 100 10) = None
    /\ flows st' !! sk_tuple (Ex.conn 2 500 11)
       = flows Ex.two_flows !! sk_tuple (Ex.conn 2 500 11).
Proof.
  cbn zeta.
  pose proof (X14_purge_evicts_idle (Ex.cfg 2 0) (Ex.msec 300000)
                Ex.two_flows) as H.
  change (tcp_hash_lock Ex.two_flows) with false in H.
  destruct H as (st' & Hd & Hiff & Hgone & _).
  exists st'. split; [exact Hd |]. split.
  - apply (Hgone _ (fresh_flow (Ex.conn 1 100 10) 0));
      vm_compute; first [reflexivity | discriminate].
  - assert (Hin : flows Ex.two_flows !! sk_tuple (Ex.conn 2 500 11)
                  = Some (fresh_flow (Ex.conn 2 500 11) (Ex.msec 1)))
      by (vm_compute; reflexivity).
    rewrite Hin. apply Hiff. split; [exact Hin |].
    vm_compute. reflexivity.
Defined.

(** * Loading and unloading ([main.c]) *)

Lemma roundup_pow_of_two_bounds n :
  0 < n ->
  n <= roundup_pow_of_two n < 2 * n
  /\ roundup_pow_of_two n = 2 ^ Z.log2_up n
  /\ 0 <= Z.log2_up n.
Proof.
  intros Hn. unfold roundup_pow_of_two.
  pose proof (Z.log2_up_nonneg n) as Hl.
  split; [| split; [reflexivity | exact Hl]].
  destruct (Z.eq_dec n 1) as [-> | Hne]; [cbn; lia |].
  destruct (Z.log2_up_spec n ltac:(lia)) as [Hlo Hhi].
  split; [exact Hhi |].
  replace (Z.log2_up n) with (Z.succ (Z.pred (Z.log2_up n))) by lia.
  rewrite Z.pow_succ_r.
  - lia.
  - assert (0 < Z.log2_up n) by (apply Z.log2_up_pos; lia). lia.
Qed.

(** The two ways [tcpprobe_init] can return. *)
Lemma tcpprobe_init_cases k cfg hashsize :
  let r := tcpprobe_init k cfg hashsize in
  (fst r <> 0
   /\ (fst r = - EINVAL \/ fst r = - ENOMEM
       \/ fst r = register_jprobe_rcv k \/ fst r = register_jprobe_done k)
   /\ (bufsize cfg = 0 -> fst r = - EINVAL)
   /\ exists m, snd r = Some m /\ m_held m = [])
  \/ (fst r = 0
      /\ bufsize cfg <> 0
      /\ snd r
         = Some
             (let c := set_bufsize (u32 (roundup_pow_of_two (bufsize cfg)))
                         cfg in
              {| m_cfg := c;
                 m_hashsize := init_hashsize k hashsize;
                 m_tcp_hash_size := init_hashsize k hashsize;
                 m_held := all_resources;
                 m_state :=
                   initial_state
                     (replicate (Z.to_nat (bufsize c)) zero_log) |})).
Proof.
  cbn zeta. unfold tcpprobe_init.
  destruct (Z.eqb_spec (bufsize cfg) 0) as [H0 | H0].
  { left. cbn [fst snd]. split; [unfold EINVAL; lia |].
    split; [auto |]. split; [auto |]. eexists. split; reflexivity. }
  assert (Hnomem : - ENOMEM <> 0) by (unfold ENOMEM; lia).
  destruct (vmalloc_ok k); cbn [negb].
  2: { left. cbn [fst snd]. split; [exact Hnomem |]. split; [auto |].
       split; [intros; contradiction |]. eexists. split; reflexivity. }
  destruct (kmem_cache_create_ok k); cbn [negb].
  2: { left. cbn [fst snd]. split; [exact Hnomem |]. split; [auto |].
       split; [intros; contradiction |]. eexists. split; reflexivity. }
  destruct (register_sysctl_ok k); cbn [negb].
  2: { left. cbn [fst snd]. split; [exact Hnomem |]. split; [auto |].
       split; [intros; contradiction |]. eexists. split; reflexivity. }
  destruct (proc_create_stat_ok k); cbn [negb].
  2: { left. cbn [fst snd]. split; [exact Hnomem |]. split; [auto |].
       split; [intros; contradiction |]. eexists. split; reflexivity. }
  destruct (kcalloc_ok k); cbn [negb].
  2: { left. cbn [fst snd]. split; [exact Hnomem |]. split; [auto |].
       split; [intros; contradiction |]. eexists. split; reflexivity. }
  destruct (proc_create_data_ok k); cbn [negb].
  2: { left. cbn [fst snd]. split; [exact Hnomem |]. split; [auto |].
       split; [intros; contradiction |]. eexists. split; reflexivity. }
  destruct (Z.eqb_spec (register_jprobe_rcv k) 0) as [Hr | Hr]; cbn [negb].
  2: { left. cbn [fst snd]. split; [exact Hr |]. split; [auto |].
       split; [intros; contradiction |]. eexists. split; reflexivity. }
  destruct (Z.eqb_spec (register_jprobe_done k) 0) as [Hd | Hd]; cbn [negb].
  2: { left. cbn [fst snd]. split; [exact Hd |]. split; [auto 6 |].
       split; [intros; contradiction |]. eexists. split; reflexivity. }
  right. cbn [fst snd]. split; [reflexivity |]. split; [exact H0 |].
  reflexivity.
Qed.

(** X15. [tcpprobe_init] leaves nothing behind when it fails. On every
    path it gives back only what it had acquired; when it returns an
    error the module holds nothing, and when it returns 0 it holds the
    hash table, the flow cache, the purge timer, the sysctl table, both
    proc entries, the ring and both probes. The value returned is
    [-EINVAL] for a ring size of 0; otherwise [-ENOMEM] when an
    allocation or a registration of a proc or sysctl entry fails;
    otherwise the code returned by [register_jprobe] for the first
    probe when that is not 0; otherwise the code returned for the
    second probe, which is 0 exactly when the module is loaded. *)
Theorem X15_init_unwinds k cfg hashsize :
  let r := tcpprobe_init k cfg hashsize in
  fst r
  = (if bufsize cfg =? 0 then - EINVAL
     else if vmalloc_ok k && kmem_cache_create_ok k
             && register_sysctl_ok k && proc_create_stat_ok k
             && kcalloc_ok k && proc_create_data_ok k
          then if register_jprobe_rcv k =? 0 then register_jprobe_done k
               else register_jprobe_rcv k
          else - ENOMEM)
  /\ exists m,
       snd r = Some m
       /\ (if fst r =? 0 then m_held m = all_resources else m_held m = []).
Proof.
  cbn zeta. split.
  - unfold tcpprobe_init. destruct (bufsize cfg =? 0); [reflexivity |].
    destruct (vmalloc_ok k); [| reflexivity].
    destruct (kmem_cache_create_ok k); [| reflexivity].
    destruct (register_sysctl_ok k); [| reflexivity].
    destruct (proc_create_stat_ok k); [| reflexivity].
    destruct (kcalloc_ok k); [| reflexivity].
    destruct (proc_create_data_ok k); [| reflexivity].
    cbn [andb negb].
    destruct (Z.eqb_spec (register_jprobe_rcv k) 0) as [Hr | Hr];
      [| reflexivity].
    cbn [negb].
    destruct (Z.eqb_spec (register_jprobe_done k) 0) as [Hd | Hd];
      cbn [negb fst]; [symmetry; exact Hd | reflexivity].
  - destruct (tcpprobe_init_cases k cfg hashsize)
      as [(Hne & _ & _ & m & Hm & Hh) | (H0 & _ & Hm)].
    + exists m. split; [exact Hm |].
      apply Z.eqb_neq in Hne. rewrite Hne. exact Hh.
    + eexists. split; [exact Hm |]. rewrite H0. reflexivity.
Qed.

Lemma X15_init_unwinds_witness :
  fst (tcpprobe_init (kernel_no_tcp_done 100000) (Ex.cfg 5 0) 0) = -22
  /\ exists m,
       snd (tcpprobe_init (kernel_no_tcp_done 100000) (Ex.cfg 5 0) 0) = Some m
       /\ m_held m = [].
Proof.
  destruct (X15_init_unwinds (kernel_no_tcp_done 100000) (Ex.cfg 5 0) 0)
    as (Hret & m & Hm & Hh).
  split; [exact Hret |]. exists m. split; [exact Hm |].
  rewrite Hret in Hh. exact Hh.
Defined.

(** X16. A module that loaded is ready for the handlers. When
    [tcpprobe_init] returns 0 for a requested ring size between 1 and
    [2 ^ 31], the ring size in use is the power of two at or above the
    request and below twice the request, the ring is empty, the hash
    table has at least 32 buckets (exactly [hashsize] when 32 or more
    were asked for), no flow is tracked, and the state satisfies the
    invariant of the handlers. *)
Theorem X16_init_success k cfg hashsize :
  0 < bufsize cfg <= 2 ^ 31 ->
  fst (tcpprobe_init k cfg hashsize) = 0 ->
  exists m e,
    snd (tcpprobe_init k cfg hashsize) = Some m
    /\ 0 <= e /\ bufsize (m_cfg m) = 2 ^ e
    /\ bufsize cfg <= bufsize (m_cfg m) < 2 * bufsize cfg
    /\ 32 <= m_tcp_hash_size m
    /\ (32 <= hashsize -> m_tcp_hash_size m = hashsize)
    /\ state_ok (m_cfg m) (m_state m)
    /\ ring_records (m_cfg m) (tcp_probe (m_state m)) = []
    /\ flows (m_state m) = ∅.
Proof.
  intros Hb H0.
  destruct (tcpprobe_init_cases k cfg hashsize)
    as [(Hne & _) | (_ & _ & Hm)]; [contradiction |].
  cbn zeta in Hm. rewrite Hm.
  destruct (roundup_pow_of_two_bounds (bufsize cfg) ltac:(lia))
    as (Hr & Hpow & Hl).
  assert (Hu : u32 (roundup_pow_of_two (bufsize cfg))
               = roundup_pow_of_two (bufsize cfg)).
  { apply u32_small. unfold in_u32. lia. }
  eexists. exists (Z.log2_up (bufsize cfg)). split; [reflexivity |].
  cbn [m_cfg m_tcp_hash_size m_state set_bufsize bufsize].
  rewrite Hu. split; [exact Hl |]. split; [exact Hpow |].
  split; [exact Hr |].
  assert (Hhs : 32 <= init_hashsize k hashsize
                /\ (32 <= hashsize -> init_hashsize k hashsize = hashsize)).
  { unfold init_hashsize.
    destruct (Z.eqb_spec hashsize 0) as [-> | Hh].
    - split; [| lia].
      match goal with |- 32 <= (if ?x <? 32 then _ else _) =>
        destruct (Z.ltb_spec x 32); lia end.
    - destruct (Z.ltb_spec hashsize 32); split; lia. }
  split; [apply Hhs |]. split; [apply Hhs |].
  set (c := {| port := port cfg; full := full cfg; probetime := probetime cfg;
               purgetime := purgetime cfg; maxflows := maxflows cfg;
               bufsize := roundup_pow_of_two (bufsize cfg) |}).
  split; [| split; [| reflexivity]].
  - apply (initial_state_ok c (Z.log2_up (bufsize cfg))); [exact Hl |].
    exact Hpow.
  - unfold ring_records, tcp_probe_used.
    cbn [tcp_probe initial_state head tail].
    rewrite Z.sub_diag, Z.land_0_l. reflexivity.
Qed.

Lemma X16_init_success_witness :
  exists m,
    snd (tcpprobe_init (kernel_ok 100000) (Ex.cfg 5 0) 0) = Some m
    /\ bufsize (m_cfg m) = 8
    /\ m_tcp_hash_size m = 3125.
Proof.
  destruct (X16_init_success (kernel_ok 100000) (Ex.cfg 5 0) 0
              ltac:(cbn; lia) eq_refl)
    as (m & e & Hm & _).
  exists m. split; [exact Hm |].
  vm_compute in Hm. injection Hm as <-. split; reflexivity.
Defined.

(** X17. The automatic size of the hash table. With [hashsize = 0] the
    table gets between 32 and 16384 buckets: 16384 on a machine with
    more than 1 GiB of memory, otherwise one bucket for every 16 KiB of
    memory divided by the size of a list head, and 32 when that is
    less. *)
Theorem X17_auto_hashsize_bounds k :
  0 <= totalram_pages k -> 0 <= PAGE_SHIFT k ->
  4 <= sizeof_hlist_head k ->
  32 <= init_hashsize k 0 <= 16384
  /\ (2 ^ 30 / 2 ^ PAGE_SHIFT k < totalram_pages k ->
      init_hashsize k 0 = 16384).
Proof.
  intros Hp Hs Hsz. unfold init_hashsize. cbn [Z.eqb].
  rewrite Z.shiftl_1_l.
  assert (H2s : 0 < 2 ^ PAGE_SHIFT k) by (apply Z.pow_pos_nonneg; lia).
  rewrite (Z.quot_div_nonneg (1024 * 1024 * 1024)) by lia.
  change (1024 * 1024 * 1024) with (2 ^ 30).
  destruct (Z.gtb_spec (totalram_pages k) (2 ^ 30 / 2 ^ PAGE_SHIFT k))
    as [Hbig | Hsmall].
  { cbn. split; [lia | reflexivity]. }
  split; [| lia].
  rewrite Z.shiftl_mul_pow2 by lia.
  assert (Hmem : 0 <= totalram_pages k * 2 ^ PAGE_SHIFT k <= 2 ^ 30).
  { split; [lia |].
    pose proof (Z.mul_div_le (2 ^ 30) (2 ^ PAGE_SHIFT k) H2s). nia. }
  rewrite u64_small by (unfold in_u64; lia).
  rewrite (Z.quot_div_nonneg (totalram_pages k * 2 ^ PAGE_SHIFT k) 16384)
    by lia.
  set (q := totalram_pages k * 2 ^ PAGE_SHIFT k / 16384).
  assert (Hq : 0 <= q <= 65536).
  { unfold q. split; [apply Z.div_pos; lia |].
    apply Z.div_le_upper_bound; lia. }
  rewrite Z.quot_div_nonneg by lia.
  assert (Hh : 0 <= q / sizeof_hlist_head k <= 16384).
  { split; [apply Z.div_pos; lia |].
    apply Z.div_le_upper_bound; [lia | nia]. }
  rewrite u32_small by (unfold in_u32; lia).
  destruct (Z.ltb_spec (q / sizeof_hlist_head k) 32); lia.
Qed.

Lemma X17_auto_hashsize_bounds_witness :
  32 <= init_hashsize (kernel_ok 100000) 0 <= 16384
  /\ init_hashsize (kernel_ok 300000) 0 = 16384.
Proof.
  split.
  - apply (X17_auto_hashsize_bounds (kernel_ok 100000)); cbn; lia.
  - destruct (X17_auto_hashsize_bounds (kernel_ok 300000)) as (_ & H);
      [cbn; lia .. |].
    apply H. vm_compute. reflexivity.
Defined.

Lemma tcpprobe_exit_loaded m :
  m_held m = all_resources ->
  tcp_hash_lock (m_state m) = false ->
  exists m',
    tcpprobe_exit m = Some m'
    /\ m_held m' = []
    /\ flows (m_state m') = ∅
    /\ flow_count (m_state m')
       = flow_count (m_state m) - Z.of_nat (size (flows (m_state m)))
    /\ m_cfg m' = m_cfg m.
Proof.
  intros Hh Hl. unfold tcpprobe_exit, purge_all_flows. rewrite Hh, Hl.
  eexists. split; [reflexivity |]. repeat split.
Qed.

(** X18. Load, work, unload. After a successful [tcpprobe_init], any
    sequence of observations, close events and purge timer runs goes
    through, and [tcpprobe_exit] afterwards gives back everything the
    module holds, evicts every flow still in the table and brings the
    flow counter back to 0. *)
Theorem X18_module_life_cycle k cfg hashsize l :
  0 < bufsize cfg <= 2 ^ 31 ->
  fst (tcpprobe_init k cfg hashsize) = 0 ->
  exists m st m',
    snd (tcpprobe_init k cfg hashsize) = Some m
    /\ run (m_cfg m) l (m_state m) = Done st
    /\ tcpprobe_exit (set_m_state st m) = Some m'
    /\ m_held m' = []
    /\ flows (m_state m') = ∅
    /\ flow_count (m_state m') = 0.
Proof.
  intros Hb H0.
  destruct (tcpprobe_init_cases k cfg hashsize)
    as [(Hne & _) | (_ & _ & Hm)]; [contradiction |].
  cbn zeta in Hm. rewrite Hm.
  destruct (roundup_pow_of_two_bounds (bufsize cfg) ltac:(lia))
    as (Hr & Hpow & Hl).
  assert (Hu : u32 (roundup_pow_of_two (bufsize cfg))
               = roundup_pow_of_two (bufsize cfg)).
  { apply u32_small. unfold in_u32. lia. }
  set (c := set_bufsize (u32 (roundup_pow_of_two (bufsize cfg))) cfg) in *.
  assert (Hok : state_ok c
                  (initial_state (replicate (Z.to_nat (bufsize c)) zero_log))).
  { apply (initial_state_ok c (Z.log2_up (bufsize cfg))); [exact Hl |].
    unfold c. cbn [set_bufsize bufsize]. rewrite Hu. exact Hpow. }
  destruct (run_state_ok c l _ Hok) as (st & Hrun & Hok').
  set (m := {| m_cfg := c; m_hashsize := init_hashsize k hashsize;
               m_tcp_hash_size := init_hashsize k hashsize;
               m_held := all_resources;
               m_state := initial_state
                            (replicate (Z.to_nat (bufsize c)) zero_log) |}).
  destruct Hok' as (Hlock & Hcount & _).
  destruct (tcpprobe_exit_loaded (set_m_state st m) eq_refl Hlock)
    as (m' & He & Hh & Hf & Hc & _).
  exists m, st, m'. split; [reflexivity |]. split; [exact Hrun |].
  split; [exact He |]. split; [exact Hh |]. split; [exact Hf |].
  rewrite Hc. cbn [set_m_state m_state]. unfold counted in Hcount. lia.
Qed.

Lemma X18_module_life_cycle_witness :
  let l := [Observed (Ex.conn 1 100 10) 1000 0;
            Observed (Ex.conn 2 500 11) 1000 (Ex.msec 1);
            Closed (Ex.conn 1 5100 12) (Ex.msec 50)] in
  exists m st m',
    snd (tcpprobe_init (kernel_ok 100000) (Ex.cfg 5 0) 0) = Some m
    /\ run (m_cfg m) l (m_state m) = Done st
    /\ tcpprobe_exit (set_m_state st m) = Some m'
    /\ m_held m' = []
    /\ flow_count (m_state m') = 0.
Proof.
  cbn zeta.
  destruct (X18_module_life_cycle (kernel_ok 100000) (Ex.cfg 5 0) 0
              [Observed (Ex.conn 1 100 10) 1000 0;
               Observed (Ex.conn 2 500 11) 1000 (Ex.msec 1);
               Closed (Ex.conn 1 5100 12) (Ex.msec 50)]
              ltac:(cbn; lia) eq_refl)
    as (m & st & m' & H1 & H2 & H3 & H4 & _ & H6).
  exists m, st, m'. repeat (split; [assumption |]). exact H6.
Defined.

(** ** The admission bound along a run *)

Lemma rcv_size_bound cfg sk len now st :
  counted st -> 0 < maxflows cfg ->
  Z.of_nat (size (flows st)) <= maxflows cfg ->
  Z.of_nat (size (flows (jtcp_rcv_established cfg sk len now st)))
  <= maxflows cfg.
Proof.
  intros Hc HK Hsz.
  destruct (port_filter cfg (sk_tuple sk) && cwnd_gate cfg sk st) eqn:Hg.
  2: { rewrite rcv_filtered by assumption. exact Hsz. }
  apply andb_prop in Hg as [Hp Hw].
  destruct (tcp_hash_lock st) eqn:Hl.
  { rewrite rcv_lock_held by assumption. exact Hsz. }
  destruct (tcp_flow_find (sk_tuple sk) st) as [g |] eqn:Hf.
  - destruct (interval_gate cfg now g) eqn:Hi.
    + rewrite (rcv_tracked_written cfg sk len now st g) by assumption.
      rewrite write_flow_flows. cbn [store_flow set_flows flows].
      rewrite map_size_insert_Some; [exact Hsz |].
      unfold tcp_flow_find in Hf. rewrite Hf. eauto.
    + rewrite (rcv_tracked_gated cfg sk len now st g) by assumption.
      exact Hsz.
  - destruct (maxflow_reached cfg st) eqn:Hm.
    + rewrite rcv_rejected by assumption. exact Hsz.
    + rewrite rcv_created by assumption.
      rewrite write_flow_flows. cbn [set_flow_count set_flows flows].
      rewrite map_size_insert_None by exact Hf.
      unfold maxflow_reached in Hm. apply andb_false_iff in Hm.
      unfold counted in Hc.
      destruct Hm as [Hm | Hm].
      * rewrite Z.gtb_ltb in Hm. apply Z.ltb_ge in Hm. lia.
      * rewrite Z.geb_leb in Hm. apply Z.leb_gt in Hm. lia.
Qed.

Lemma run_size_bound cfg l : forall st,
  state_ok cfg st -> 0 < maxflows cfg ->
  Z.of_nat (size (flows st)) <= maxflows cfg ->
  exists st',
    run cfg l st = Done st'
    /\ Z.of_nat (size (flows st')) <= maxflows cfg.
Proof.
  induction l as [| e l IH]; intros st Hok HK Hsz.
  - exists st. split; [reflexivity | exact Hsz].
  - destruct (state_ok_step cfg e st Hok) as (st1 & Hs & Hok1).
    assert (Hsz1 : Z.of_nat (size (flows st1)) <= maxflows cfg).
    { destruct Hok as (Hl & Hc & _).
      destruct e as [sk len now | sk now | now]; cbn [step] in Hs.
      - revert Hs. done_eq. apply rcv_size_bound; assumption.
      - destruct (done_flows_shape cfg sk now st st1 Hs)
          as [(-> & _) | (_ & Hsome & Hfl & _)]; [exact Hsz |].
        rewrite Hfl. rewrite map_size_delete_Some by exact Hsome. lia.
      - unfold purge_timer_run in Hs. rewrite Hl in Hs. revert Hs. done_eq.
        cbn [set_flow_count set_flows flows].
        pose proof (map_size_filter
                      (fun kv : tcp_tuple * tcp_hash_flow =>
                         ~ purgetime cfg <= idle_seconds now (tstamp kv.2))
                      (flows st)).
        lia. }
    destruct (IH st1 Hok1 HK Hsz1) as (st' & Hr & Hsz').
    exists st'. split; [| exact Hsz']. cbn [run]. rewrite Hs. exact Hr.
Qed.

(** X19. The admission bound holds along every run. With
    [maxflows = K > 0], starting from a consistent state that tracks at
    most [K] flows, no sequence of observations, close events and purge
    timer runs ever brings the table above [K] entries. *)
Theorem X19_never_more_than_maxflows cfg l st :
  state_ok cfg st -> 0 < maxflows cfg ->
  Z.of_nat (size (flows st)) <= maxflows cfg ->
  exists st',
    run cfg l st = Done st'
    /\ Z.of_nat (size (flows st')) <= maxflows cfg.
Proof. apply run_size_bound. Qed.

Lemma X19_never_more_than_maxflows_witness :
  let c := Ex.cfg 4 1 in
  let l := [Observed (Ex.conn 1 100 10) 1000 0;
            Observed (Ex.conn 2 500 11) 1000 (Ex.msec 1);
            Observed (Ex.conn 3 900 12) 1000 (Ex.msec 2)] in
  exists st',
    run c l (Ex.boot 4) = Done st' /\ Z.of_nat (size (flows st')) <= 1.
Proof.
  cbn zeta. apply (X19_never_more_than_maxflows (Ex.cfg 4 1)).
  - apply (initial_state_ok (Ex.cfg 4 1) 2); [lia | reflexivity].
  - reflexivity.
  - vm_compute. discriminate.
Defined.
